(** * Plots of generalization-across-time scores: [mne/viz/decoding.py]

    A shallow embedding of [plot_gat_matrix] and [plot_gat_slice].

    Conventions of the embedding:
    - times and scores are rationals ([Q]); the code only subtracts, takes
      absolute values of and compares times, and copies scores;
    - a Python exception is a value of [exn], carried on the left of a sum;
    - the calls made on matplotlib ([plt], [ax]) and on [warnings] are
      recorded, in program order, in a trace of [call]s;
    - [gat.scorer_.__name__ is 'accuracy_score'] is read as string equality. *)

From Stdlib Require Import String List ZArith QArith Qabs Bool Lia Lqa.
From Stdlib Require Import Sorted Permutation.
Import ListNotations.

Local Open Scope Q_scope.
Local Open Scope list_scope.

(** ** Python values, exceptions, numpy scalars *)

(** The values a caller may pass for [train_time] and [chance]. *)
Inductive pyval : Type :=
| PyNone
| PyBool (b : bool)
| PyInt (z : Z)
| PyStr (s : string)
| PyFloat (x : Q)
| NpFloat64 (x : Q)
| NpFloat32 (x : Q).

(** The exceptions the two functions can raise, one constructor per
    [raise] statement of the file and per failing primitive. *)
Inductive exn : Type :=
| RuntimeError_not_scored     (* 'Please score your data before trying to plot scores' *)
| ValueError_no_classifier (t : Q)   (* "No classifier trained at %s " % train_time *)
| ValueError_train_time       (* "train_time must be 'diagonal' or a float." *)
| ValueError_empty_sequence   (* numpy: argmin / min of an empty sequence *)
| IndexError
| AttributeError
| ZeroDivisionError.

(** The names the specification gives to the three documented failures. *)
Definition NotScoredError : exn := RuntimeError_not_scored.
Definition NoClassifierAtTimeError (t : Q) : exn := ValueError_no_classifier t.
Definition InvalidSelectorError : exn := ValueError_train_time.

(** A float that may be [np.nan]. *)
Inductive npfloat : Type :=
| Fin (x : Q)
| NaN.

(** What the local variable [scores] of [plot_gat_slice] holds: the whole
    grid [gat.scores_], or a one-dimensional array. *)
Inductive ndarray : Type :=
| Arr1 (v : list Q)
| Arr2 (g : list (list Q)).

(** Row-major sequence of the entries of an array ([np.ravel]). *)
Definition ravel (a : ndarray) : list Q :=
  match a with
  | Arr1 v => v
  | Arr2 g => List.concat g
  end.

(** ** The error monad of pure computations *)

Definition res (A : Type) : Type := (exn + A)%type.

Definition ok {A} (a : A) : res A := inr a.
Definition raise {A} (e : exn) : res A := inl e.

Definition rbind {A B} (m : res A) (k : A -> res B) : res B :=
  match m with
  | inl e => inl e
  | inr a => k a
  end.

Declare Scope res_scope.
Delimit Scope res_scope with res.
Notation "x <- m ;; k" := (rbind m (fun x => k))
  (at level 61, m at next level, right associativity) : res_scope.

(** Left-to-right loop with early exit on an exception. *)
Fixpoint for_each {A S} (body : S -> A -> res S) (l : list A) (s : S) : res S :=
  match l with
  | [] => ok s
  | a :: r => rbind (body s a) (for_each body r)
  end.

(** [enumerate(l)], counting from [n]. *)
Fixpoint enumerate_from {A} (n : nat) (l : list A) : list (nat * A) :=
  match l with
  | [] => []
  | a :: r => (n, a) :: enumerate_from (S n) r
  end.

Definition enumerate {A} (l : list A) : list (nat * A) := enumerate_from 0 l.

(** ** Sequences *)

(** [l[i]] for a non-negative index. *)
Definition getitem {A} (l : list A) (i : nat) : res A :=
  match nth_error l i with
  | Some a => ok a
  | None => raise IndexError
  end.

(** [l[i] = v] for a non-negative index. *)
Fixpoint setitem {A} (l : list A) (i : nat) (v : A) : res (list A) :=
  match l, i with
  | [], _ => raise IndexError
  | _ :: r, O => ok (v :: r)
  | a :: r, S i' => rbind (setitem r i' v) (fun r' => ok (a :: r'))
  end.

(** [l[0]] and [l[-1]]. *)
Definition first {A} (l : list A) : res A := getitem l 0.

Fixpoint last_item {A} (l : list A) : res A :=
  match l with
  | [] => raise IndexError
  | [a] => ok a
  | _ :: r => last_item r
  end.

(** ** numpy *)

Definition Qlt_bool (x y : Q) : bool := negb (Qle_bool y x).

(** Scan for [argmin]: [best] is the smallest value seen so far, found at
    [bi]; [i] is the index of the head of [l].  A later element replaces the
    current one only when strictly smaller, so the first minimum wins. *)
Fixpoint argmin_from (best : Q) (bi i : nat) (l : list Q) : nat :=
  match l with
  | [] => bi
  | x :: r =>
      if Qlt_bool x best then argmin_from x i (S i) r
      else argmin_from best bi (S i) r
  end.

Definition np_argmin (l : list Q) : res nat :=
  match l with
  | [] => raise ValueError_empty_sequence
  | x :: r => ok (argmin_from x 0 1 r)
  end.

Fixpoint min_from (best : Q) (l : list Q) : Q :=
  match l with
  | [] => best
  | x :: r => if Qlt_bool x best then min_from x r else min_from best r
  end.

Fixpoint max_from (best : Q) (l : list Q) : Q :=
  match l with
  | [] => best
  | x :: r => if Qlt_bool best x then max_from x r else max_from best r
  end.

Definition np_min (a : ndarray) : res Q :=
  match ravel a with
  | [] => raise ValueError_empty_sequence
  | x :: r => ok (min_from x r)
  end.

Definition np_max (a : ndarray) : res Q :=
  match ravel a with
  | [] => raise ValueError_empty_sequence
  | x :: r => ok (max_from x r)
  end.

(** [np.abs(times - t)] *)
Definition abs_diff (times : list Q) (t : Q) : list Q :=
  map (fun u => Qabs (u - t)) times.

(** [np.unique]: the sorted distinct elements. *)
Section Unique.
Context {A : Type} (ltb eqb : A -> A -> bool).

Fixpoint insert_unique (a : A) (l : list A) : list A :=
  match l with
  | [] => [a]
  | b :: r =>
      if ltb a b then a :: l
      else if eqb a b then l
      else b :: insert_unique a r
  end.

Definition np_unique (l : list A) : list A := fold_right insert_unique [] l.
End Unique.

(** [np.zeros(n)] *)
Definition np_zeros (n : nat) : list Q := repeat 0 n.

(** ** The object being plotted *)

(** The attributes of a [GeneralizationAcrossTime] instance that the two
    functions read.  [scores_] is [None] when [hasattr(gat, 'scores_')] is
    false.  [scorer_] and [scorer] are two distinct attributes in the code:
    the chance level and the axis label read [gat.scorer_], the warning
    message reads [gat.scorer]; [scorer_name] is [None] when evaluating
    [gat.scorer.__name__] raises [AttributeError]. *)
Record GeneralizationAcrossTime : Type := {
  scores_ : option (list (list Q));      (* gat.scores_ *)
  train_times_times_ : list Q;           (* gat.train_times['times_'] *)
  train_times_step : Q;                  (* gat.train_times['step'] *)
  test_times_times_ : list (list Q);     (* gat.test_times_['times_'] *)
  scorer_name_ : string;                 (* gat.scorer_.__name__ *)
  scorer_repr_ : string;                 (* repr(gat.scorer_) *)
  scorer_name : option string;           (* gat.scorer.__name__ *)
  y_train_ : list Z                      (* gat.y_train_ *)
}.

(** ** matplotlib and warnings: the recorded calls *)

Inductive axes : Type :=
| new_axes                 (* the axes created by plt.subplots(1, 1) *)
| given_axes (n : nat).    (* an axes passed by the caller *)

Inductive figure : Type :=
| figure_of (a : axes).    (* ax.get_figure() *)

Inductive call : Type :=
| plt_subplots (nrows ncols : nat)
| ax_imshow (X : list (list Q)) (extent : list Q) (vmin vmax : Q) (cmap : string)
| ax_plot (x : list Q) (y : ndarray) (color label : string)
| ax_axvline (x : Q) (color : string)
| ax_axhline (y : npfloat) (color : string) (linestyle label : option string)
| ax_set_xlabel (s : string)
| ax_set_ylabel (s : string)
| ax_set_title (s : string)
| ax_set_xlim (lim : list Q)
| ax_set_ylim (lim : list Q)
| ax_legend (loc : string)
| plt_colorbar
| plt_show
| warnings_warn (msg : string).

(** A computation that appends to the trace of calls and may raise. *)
Definition draw (A : Type) : Type := list call -> list call * res A.

Definition dret {A} (a : A) : draw A := fun tr => (tr, ok a).

Definition dbind {A B} (m : draw A) (k : A -> draw B) : draw B :=
  fun tr =>
    match m tr with
    | (tr', inl e) => (tr', inl e)
    | (tr', inr a) => k a tr'
    end.

Definition emit (c : call) : draw unit := fun tr => (tr ++ [c], ok tt).

Definition lift {A} (m : res A) : draw A := fun tr => (tr, m).

Definition when (b : bool) (m : draw unit) : draw unit :=
  if b then m else dret tt.

Declare Scope draw_scope.
Delimit Scope draw_scope with draw.
Notation "x <- m ;; k" := (dbind m (fun x => k))
  (at level 61, m at next level, right associativity) : draw_scope.
Notation "m ;; k" := (dbind m (fun _ => k))
  (at level 61, right associativity) : draw_scope.

(** [if ax is None: fig, ax = plt.subplots(1, 1)] *)
Definition get_axes (ax : option axes) : draw axes :=
  match ax with
  | None => dbind (emit (plt_subplots 1 1)) (fun _ => dret new_axes)
  | Some a => dret a
  end.

(** [x if x is not None else default] with a default that is only
    evaluated when needed. *)
Definition default_to {A} (x : option A) (d : res A) : draw A :=
  match x with
  | None => lift d
  | Some a => dret a
  end.

(** ** [plot_gat_matrix] *)

(** Lines 73-75: the time limits used when [tlim is None].  In the code
    [tt_times] are the training times and [tn_times] the testing times. *)
Definition default_tlim (gat : GeneralizationAcrossTime) : res (list Q) :=
  (let tt_times := train_times_times_ gat in
   let tn_times := test_times_times_ gat in
   r0 <- first tn_times ;;
   a <- first r0 ;;
   r1 <- last_item tn_times ;;
   b <- last_item r1 ;;
   c <- first tt_times ;;
   d <- last_item tt_times ;;
   ok [a; b; c; d])%res.

Definition plot_gat_matrix (gat : GeneralizationAcrossTime)
    (title : option string) (vmin vmax : option Q) (tlim : option (list Q))
    (ax : option axes) (cmap : string) (show colorbar xlabel ylabel : bool)
    : draw figure :=
  match scores_ gat with
  | None => lift (raise RuntimeError_not_scored)
  | Some scores =>
      (ax <- get_axes ax ;;
       (* Define color limits *)
       vmin <- default_to vmin (np_min (Arr2 scores)) ;;
       vmax <- default_to vmax (np_max (Arr2 scores)) ;;
       (* Define time limits *)
       tlim <- default_to tlim (default_tlim gat) ;;
       (* Plot scores *)
       emit (ax_imshow scores tlim vmin vmax cmap) ;;
       when xlabel (emit (ax_set_xlabel "Testing Time (s)")) ;;
       when ylabel (emit (ax_set_ylabel "Training Time (s)")) ;;
       match title with
       | Some t => emit (ax_set_title t)
       | None => dret tt
       end ;;
       emit (ax_axvline 0 "k") ;;
       emit (ax_axhline (Fin 0) "k" None None) ;;
       emit (ax_set_xlim (firstn 2 tlim)) ;;
       emit (ax_set_ylim (skipn 2 tlim)) ;;
       when colorbar (emit plt_colorbar) ;;
       when show (emit plt_show) ;;
       dret (figure_of ax))%draw
  end.

(** ** [plot_gat_slice] *)

(** Line 152: [np.all(np.unique([len(t) for t in times]) == 1)]. *)
Definition only_diagonal (gat : GeneralizationAcrossTime) : bool :=
  forallb (fun n => Nat.eqb n 1)
    (np_unique Nat.ltb Nat.eqb (map (@List.length Q) (test_times_times_ gat))).

(** [train_time == 'diagonal'] *)
Definition is_diagonal (train_time : pyval) : bool :=
  match train_time with
  | PyStr s => String.eqb s "diagonal"
  | _ => false
  end.

(** [type(train_time) in [float, np.float64, np.float32]], with the value
    of the float when the test holds. *)
Definition float_value (train_time : pyval) : option Q :=
  match train_time with
  | PyFloat x | NpFloat64 x | NpFloat32 x => Some x
  | _ => None
  end.

(** Lines 161-164: the body of the inner loop, for the classifier [i]
    trained at [train_time] and one row [test_times]. *)
Definition diagonal_body (gat_scores : list (list Q)) (step : Q)
    (i : nat) (train_time : Q) (scores : list Q) (test_times : list Q)
    : res (list Q) :=
  (j <- np_argmin (abs_diff test_times train_time) ;;
   tj <- getitem test_times j ;;
   if Qle_bool (train_time - tj) step then
     row <- getitem gat_scores i ;;
     v <- getitem row j ;;
     setitem scores i v
   else ok scores)%res.

(** Lines 157-164. *)
Definition diagonal_scores (gat : GeneralizationAcrossTime)
    (gat_scores : list (list Q)) : res (list Q) :=
  for_each
    (fun scores '(i, train_time) =>
       for_each (diagonal_body gat_scores (train_times_step gat) i train_time)
         (test_times_times_ gat) scores)
    (enumerate (train_times_times_ gat))
    (np_zeros (List.length gat_scores)).

(** Lines 166-169. *)
Definition row_scores (gat : GeneralizationAcrossTime)
    (gat_scores : list (list Q)) (train_time : Q) : res (list Q) :=
  (idx <- np_argmin (abs_diff (train_times_times_ gat) train_time) ;;
   if Nat.eqb idx 0 then raise (ValueError_no_classifier train_time)
   else getitem gat_scores idx)%res.

(** Lines 152-171: the value of the local variable [scores]. *)
Definition slice_scores (gat : GeneralizationAcrossTime)
    (gat_scores : list (list Q)) (train_time : pyval) : res ndarray :=
  if only_diagonal gat then ok (Arr2 gat_scores)
  else if is_diagonal train_time then
    rbind (diagonal_scores gat gat_scores) (fun v => ok (Arr1 v))
  else
    match float_value train_time with
    | Some t => rbind (row_scores gat gat_scores t) (fun v => ok (Arr1 v))
    | None => raise ValueError_train_time
    end.

(** ['roc' in repr(gat.scorer_)] *)
Definition contains (needle hay : string) : bool :=
  match String.index 0 needle hay with
  | Some _ => true
  | None => false
  end.

(** Lines 175-185.  The call to [ax.axhline] is inside the
    [if chance is True:] block. *)
Definition chance_level (gat : GeneralizationAcrossTime) (chance : pyval)
    : draw unit :=
  match chance with
  | PyBool true =>
      (chance <-
         (if String.eqb (scorer_name_ gat) "accuracy_score" then
            match List.length (np_unique Z.ltb Z.eqb (y_train_ gat)) with
            | O => lift (raise ZeroDivisionError)
            | S n => dret (Fin (1 # Pos.of_succ_nat n))
            end
          else if String.eqb (scorer_name_ gat) "roc_auc_score" then
            dret (Fin (1 # 2))
          else
            match scorer_name gat with
            | None => lift (raise AttributeError)
            | Some name =>
                emit (warnings_warn
                        ("Cannot find chance level from " ++ name ++
                         ", specify chance level")%string) ;;
                dret NaN
            end) ;;
       emit (ax_axhline chance "k" (Some "--"%string)
               (Some "Chance level"%string)))%draw
  | _ => dret tt
  end.

Definition plot_gat_slice (gat : GeneralizationAcrossTime)
    (train_time : pyval) (title : option string)
    (xmin xmax ymin ymax : option Q) (ax : option axes) (show : bool)
    (color : string) (xlabel ylabel legend : bool) (chance : pyval)
    : draw figure :=
  match scores_ gat with
  | None => lift (raise RuntimeError_not_scored)
  | Some gat_scores =>
      (ax <- get_axes ax ;;
       (* Detect whether gat is a full matrix or just its diagonal *)
       scores <- lift (slice_scores gat gat_scores train_time) ;;
       emit (ax_plot (train_times_times_ gat) scores color "Classif. score") ;;
       (* Find chance level *)
       chance_level gat chance ;;
       match title with
       | Some t => emit (ax_set_title t)
       | None => dret tt
       end ;;
       ymin <- default_to ymin (np_min scores) ;;
       ymax <- default_to ymax (np_max scores) ;;
       emit (ax_set_ylim [ymin; ymax]) ;;
       match xmin, xmax with
       | Some a, Some b => emit (ax_set_xlim [a; b])
       | _, _ => dret tt
       end ;;
       when xlabel (emit (ax_set_xlabel "Time (s)")) ;;
       when ylabel
         (emit (ax_set_ylabel
                  ("Classif. score (" ++
                   (if contains "roc" (scorer_repr_ gat) then "AUC" else "%")
                   ++ ")")%string)) ;;
       when legend (emit (ax_legend "best")) ;;
       when show (emit plt_show) ;;
       dret (figure_of ax))%draw
  end.

(** ** Vocabulary of the properties *)

(** The row [test_times] passes the check of line 163 for a classifier
    trained at [t]: the testing time nearest to [t] in that row is at most
    [step] before [t]. *)
Definition passes (step t : Q) (test_times : list Q) : bool :=
  match np_argmin (abs_diff test_times t) with
  | inr j =>
      match nth_error test_times j with
      | Some tj => Qle_bool (t - tj) step
      | None => false
      end
  | inl _ => false
  end.

(** The last row, in row order, that passes the check. *)
Definition last_passing (step t : Q) (rows : list (list Q))
    : option (list Q) :=
  find (passes step t) (rev rows).

(** Any exception but the one about the selector. *)
Definition not_train_time (e : exn) : Prop := e <> ValueError_train_time.

Definition is_axhline (c : call) : bool :=
  match c with
  | ax_axhline _ _ _ _ => true
  | _ => false
  end.

Definition is_warning (c : call) : bool :=
  match c with
  | warnings_warn _ => true
  | _ => false
  end.

(** [x if x is not None else d], as a pure computation. *)
Definition option_or {A} (x : option A) (d : res A) : res A :=
  match x with
  | Some a => ok a
  | None => d
  end.

(** No two entries of [times] are equal as numbers. *)
Definition distinct_times (times : list Q) : Prop :=
  forall i j ti tj,
    nth_error times i = Some ti -> nth_error times j = Some tj ->
    ti == tj -> i = j.

Definition is_subplots (c : call) : bool :=
  match c with
  | plt_subplots _ _ => true
  | _ => false
  end.

Definition is_set_xlim (c : call) : bool :=
  match c with
  | ax_set_xlim _ => true
  | _ => false
  end.

(** The calls a list of optional calls stands for. *)
Definition if_call (b : bool) (c : call) : list call :=
  if b then [c] else [].

Definition title_call (title : option string) : list call :=
  match title with
  | Some t => [ax_set_title t]
  | None => []
  end.

Definition subplots_call (ax : option axes) : list call :=
  match ax with
  | None => [plt_subplots 1 1]
  | Some _ => []
  end.

(** The axes drawn on. *)
Definition axes_used (ax : option axes) : axes :=
  match ax with
  | None => new_axes
  | Some a => a
  end.

(** ** Sample objects *)

(** Two classifiers, each tested at the time before its training time and
    at its training time. *)
Definition gat_shifted : GeneralizationAcrossTime := {|
  scores_ := Some [[5; 6]; [7; 8]];
  train_times_times_ := [0; 1];
  train_times_step := 1;
  test_times_times_ := [[-1; 0]; [0; 1]];
  scorer_name_ := "accuracy_score";
  scorer_repr_ := "<function accuracy_score>";
  scorer_name := None;
  y_train_ := [0; 1; 2; 3; 0; 1; 2; 3]%Z
|}.

(** Two classifiers trained at 0 and 1 and tested only at 10 and 20. *)
Definition gat_late : GeneralizationAcrossTime := {|
  scores_ := Some [[7; 8]; [9; 10]];
  train_times_times_ := [0; 1];
  train_times_step := 1;
  test_times_times_ := [[10; 20]; [10; 20]];
  scorer_name_ := "roc_auc_score";
  scorer_repr_ := "<function roc_auc_score>";
  scorer_name := None;
  y_train_ := [0; 1; 0; 1]%Z
|}.

(** Each classifier tested at its own training time only. *)
Definition gat_column : GeneralizationAcrossTime := {|
  scores_ := Some [[1]; [2]];
  train_times_times_ := [4; 5];
  train_times_step := 1;
  test_times_times_ := [[4]; [5]];
  scorer_name_ := "accuracy_score";
  scorer_repr_ := "<function accuracy_score>";
  scorer_name := None;
  y_train_ := [0; 1; 0; 1]%Z
|}.

(** An object that was fitted but not scored. *)
Definition gat_unscored : GeneralizationAcrossTime := {|
  scores_ := None;
  train_times_times_ := [0; 1];
  train_times_step := 1;
  test_times_times_ := [[0; 1]; [0; 1]];
  scorer_name_ := "accuracy_score";
  scorer_repr_ := "<function accuracy_score>";
  scorer_name := None;
  y_train_ := [0; 1; 0; 1]%Z
|}.

(** Scored with a scorer other than the two the code knows, on an object
    that has [scorer_] but no attribute [scorer]. *)
Definition gat_f1 : GeneralizationAcrossTime := {|
  scores_ := Some [[5; 6]; [7; 8]];
  train_times_times_ := [0; 1];
  train_times_step := 1;
  test_times_times_ := [[0; 1]; [0; 1]];
  scorer_name_ := "f1_score";
  scorer_repr_ := "<function f1_score>";
  scorer_name := None;
  y_train_ := [0; 1; 0; 1]%Z
|}.

(** The same, on an object that also has [scorer]. *)
Definition gat_f1_named : GeneralizationAcrossTime := {|
  scores_ := Some [[5; 6]; [7; 8]];
  train_times_times_ := [0; 1];
  train_times_step := 1;
  test_times_times_ := [[0; 1]; [0; 1]];
  scorer_name_ := "f1_score";
  scorer_repr_ := "<function f1_score>";
  scorer_name := Some "f1_score"%string;
  y_train_ := [0; 1; 0; 1]%Z
|}.


(** The usual square grid: three classifiers, each tested at the three
    training times. *)
Definition gat_square : GeneralizationAcrossTime := {|
  scores_ := Some [[1; 2; 3]; [4; 5; 6]; [7; 8; 9]];
  train_times_times_ := [0; 1; 2];
  train_times_step := 1;
  test_times_times_ := [[0; 1; 2]; [0; 1; 2]; [0; 1; 2]];
  scorer_name_ := "accuracy_score";
  scorer_repr_ := "<function accuracy_score>";
  scorer_name := None;
  y_train_ := [0; 1; 0; 1]%Z
|}.

(** Three classifiers trained at 10, 11 and 12 and tested only at 0 and 1,
    long before. *)
Definition gat_early : GeneralizationAcrossTime := {|
  scores_ := Some [[1; 2]; [3; 4]; [5; 6]];
  train_times_times_ := [10; 11; 12];
  train_times_step := 1;
  test_times_times_ := [[0; 1]; [0; 1]; [0; 1]];
  scorer_name_ := "accuracy_score";
  scorer_repr_ := "<function accuracy_score>";
  scorer_name := None;
  y_train_ := [0; 1; 0; 1]%Z
|}.

(** Three rows of scores and two training times. *)
Definition gat_short : GeneralizationAcrossTime := {|
  scores_ := Some [[1; 2]; [3; 4]; [5; 6]];
  train_times_times_ := [0; 1];
  train_times_step := 1;
  test_times_times_ := [[0; 1]; [0; 1]];
  scorer_name_ := "accuracy_score";
  scorer_repr_ := "<function accuracy_score>";
  scorer_name := None;
  y_train_ := [0; 1; 0; 1]%Z
|}.

(** The text of the label of the y axis. *)
Definition score_label (gat : GeneralizationAcrossTime) : string :=
  ("Classif. score (" ++
   (if contains "roc" (scorer_repr_ gat) then "AUC" else "%") ++ ")")%string.


(** The calls [set_xlim] stands for in [plot_gat_slice]. *)
Definition xlim_call (xmin xmax : option Q) : list call :=
  match xmin, xmax with
  | Some a, Some b => [ax_set_xlim [a; b]]
  | _, _ => []
  end.

(** [plot_gat_slice] with every optional argument at its default. *)
Definition plot_gat_slice_default (gat : GeneralizationAcrossTime)
    (train_time chance : pyval) : list call * res figure :=
  plot_gat_slice gat train_time None None None None None None true "b"
    true true true chance [].

(** [plot_gat_matrix] with every optional argument at its default. *)
Definition plot_gat_matrix_default (gat : GeneralizationAcrossTime)
    : list call * res figure :=
  plot_gat_matrix gat None None None None None "RdBu_r" true true true true [].

(** * Properties *)

(** ** Sequences and numpy primitives *)

Lemma getitem_ok {A} (l : list A) (i : nat) (a : A) :
  getitem l i = ok a <-> nth_error l i = Some a.
Proof.
  unfold getitem, ok, raise. destruct (nth_error l i); split; congruence.
Qed.

Lemma setitem_ok {A} (l : list A) (i : nat) (v : A) (l' : list A) :
  setitem l i v = ok l' ->
  List.length l' = List.length l /\
  nth_error l' i = Some v /\
  forall k, k <> i -> nth_error l' k = nth_error l k.
Proof.
  revert i l'. induction l as [|a r IH]; intros [|i] l' H; simpl in H;
    try discriminate.
  - injection H as <-. repeat split. intros [|k] Hk; [congruence | reflexivity].
  - destruct (setitem r i v) as [e|r'] eqn:E; simpl in H; [discriminate|].
    injection H as <-. destruct (IH _ _ E) as (Hl & Hi & Ho).
    simpl. repeat split; auto.
    intros [|k] Hk; simpl; [reflexivity | apply Ho; congruence].
Qed.

Lemma Qlt_bool_iff (x y : Q) : Qlt_bool x y = true <-> x < y.
Proof.
  unfold Qlt_bool. rewrite negb_true_iff.
  destruct (Qle_bool y x) eqn:E.
  - apply Qle_bool_iff in E. split; [discriminate | intros H; lra].
  - split; [intros _ | reflexivity].
    destruct (Qlt_le_dec x y) as [H|H]; [exact H|].
    apply Qle_bool_iff in H. congruence.
Qed.

(** [argmin_from] returns an index of the scanned list or the index it was
    given, and the value there is a lower bound of everything scanned. *)
Lemma argmin_from_spec (l : list Q) :
  forall best bi i pre,
    List.length pre = i -> nth_error pre bi = Some best ->
    (forall x, In x pre -> best <= x) ->
    let j := argmin_from best bi i l in
    exists m, nth_error (pre ++ l) j = Some m /\
              forall x, In x (pre ++ l) -> m <= x.
Proof.
  induction l as [|x r IH]; intros best bi i pre Hlen Hbi Hlow; simpl.
  - rewrite app_nil_r. exists best. split; assumption.
  - destruct (Qlt_bool x best) eqn:E.
    + apply Qlt_bool_iff in E.
      specialize (IH x i (S i) (pre ++ [x])).
      rewrite <- app_assoc in IH. simpl in IH. apply IH.
      * rewrite length_app. simpl. lia.
      * rewrite nth_error_app2 by lia. rewrite Hlen, Nat.sub_diag. reflexivity.
      * intros y Hy. apply in_app_or in Hy. destruct Hy as [Hy|[<-|[]]].
        -- specialize (Hlow y Hy). lra.
        -- lra.
    + assert (Hge : best <= x).
      { destruct (Qlt_le_dec x best) as [H|H]; [|exact H].
        apply Qlt_bool_iff in H. congruence. }
      specialize (IH best bi (S i) (pre ++ [x])).
      rewrite <- app_assoc in IH. simpl in IH. apply IH.
      * rewrite length_app. simpl. lia.
      * rewrite nth_error_app1; [exact Hbi|].
        apply nth_error_Some. congruence.
      * intros y Hy. apply in_app_or in Hy. destruct Hy as [Hy|[<-|[]]].
        -- apply Hlow, Hy.
        -- exact Hge.
Qed.

(** [np_argmin] fails exactly on the empty sequence, and otherwise returns
    the index of a smallest element. *)
Lemma np_argmin_spec (l : list Q) (j : nat) :
  np_argmin l = ok j ->
  exists m, nth_error l j = Some m /\ forall x, In x l -> m <= x.
Proof.
  destruct l as [|x r]; simpl; [discriminate|].
  intros H. injection H as <-.
  apply (argmin_from_spec r x 0%nat 1%nat [x]); try reflexivity.
  intros y [<-|[]]. lra.
Qed.

Lemma np_argmin_nonempty (l : list Q) :
  l <> [] -> exists j, np_argmin l = ok j.
Proof.
  destruct l as [|x r]; [congruence|]. intros _. simpl. eauto.
Qed.

(** The index found in [abs_diff times t] is the index of a time nearest
    to [t]. *)
Lemma np_argmin_nearest (times : list Q) (t : Q) (j : nat) :
  np_argmin (abs_diff times t) = ok j ->
  exists tj, nth_error times j = Some tj /\
             forall u, In u times -> Qabs (tj - t) <= Qabs (u - t).
Proof.
  intros H. apply np_argmin_spec in H. destruct H as (m & Hj & Hmin).
  unfold abs_diff in Hj. rewrite nth_error_map in Hj.
  destruct (nth_error times j) as [tj|] eqn:E; [|discriminate].
  simpl in Hj. injection Hj as <-.
  exists tj. split; [reflexivity|].
  intros u Hu. apply Hmin. unfold abs_diff.
  apply in_map_iff. exists u. split; [reflexivity | exact Hu].
Qed.

(** [np.unique] keeps exactly the elements of its argument. *)
Section UniqueFacts.
Context {A : Type} (ltb eqb : A -> A -> bool).
Hypothesis eqb_eq : forall a b, eqb a b = true -> a = b.

Lemma in_insert_unique (a x : A) (l : list A) :
  In x (insert_unique ltb eqb a l) <-> x = a \/ In x l.
Proof.
  induction l as [|b r IH]; simpl.
  - intuition.
  - destruct (ltb a b); [simpl; intuition|].
    destruct (eqb a b) eqn:E.
    + apply eqb_eq in E. subst b. simpl. intuition.
    + simpl. rewrite IH. intuition.
Qed.

Lemma in_np_unique (x : A) (l : list A) :
  In x (np_unique ltb eqb l) <-> In x l.
Proof.
  induction l as [|a r IH]; simpl; [tauto|].
  rewrite in_insert_unique, IH. intuition.
Qed.

End UniqueFacts.

(** The test of line 152 holds exactly when every row of testing times has
    one entry. *)
Lemma only_diagonal_iff (gat : GeneralizationAcrossTime) :
  only_diagonal gat = true <->
  Forall (fun t => List.length t = 1%nat) (test_times_times_ gat).
Proof.
  unfold only_diagonal. rewrite forallb_forall, Forall_forall. split.
  - intros H t Ht. apply Nat.eqb_eq, H.
    apply in_np_unique; [apply Nat.eqb_eq|].
    apply in_map, Ht.
  - intros H n Hn. apply in_np_unique in Hn; [|apply Nat.eqb_eq].
    apply in_map_iff in Hn. destruct Hn as (t & <- & Ht).
    apply Nat.eqb_eq, H, Ht.
Qed.

(** ** Reasoning about traces and exceptions *)

(** [m] only appends calls satisfying [P] to the trace. *)
Definition emits_only {A} (P : call -> Prop) (m : draw A) : Prop :=
  forall tr, exists suf, fst (m tr) = tr ++ suf /\ Forall P suf.

(** Every exception raised by [m] satisfies [E]. *)
Definition raises_only {A} (E : exn -> Prop) (m : draw A) : Prop :=
  forall tr e, snd (m tr) = inl e -> E e.

Definition res_raises_only {A} (E : exn -> Prop) (m : res A) : Prop :=
  forall e, m = inl e -> E e.

Section DrawRules.
Context (P : call -> Prop) (E : exn -> Prop).

Lemma emits_dret {A} (a : A) : emits_only P (dret a).
Proof. intros tr. exists []. simpl. rewrite app_nil_r. auto. Qed.

Lemma emits_lift {A} (m : res A) : emits_only P (lift m).
Proof. intros tr. exists []. simpl. rewrite app_nil_r. auto. Qed.

Lemma emits_emit (c : call) : P c -> emits_only P (emit c).
Proof. intros Hc tr. exists [c]. simpl. auto. Qed.

Lemma emits_dbind {A B} (m : draw A) (k : A -> draw B) :
  emits_only P m -> (forall a, emits_only P (k a)) ->
  emits_only P (dbind m k).
Proof.
  intros Hm Hk tr. unfold dbind.
  destruct (Hm tr) as (s1 & E1 & F1).
  destruct (m tr) as [tr' [e|a]]; simpl in *.
  - exists s1. auto.
  - destruct (Hk a tr') as (s2 & E2 & F2).
    exists (s1 ++ s2). rewrite E2, E1, app_assoc. split; [reflexivity|].
    apply Forall_app. auto.
Qed.

Lemma emits_when (b : bool) (m : draw unit) :
  emits_only P m -> emits_only P (when b m).
Proof. destruct b; simpl; [auto | intros _; apply emits_dret]. Qed.

Lemma emits_default_to {A} (x : option A) (d : res A) :
  emits_only P (default_to x d).
Proof. destruct x; [apply emits_dret | apply emits_lift]. Qed.

Lemma raises_dret {A} (a : A) : raises_only E (dret a).
Proof. intros tr e H. discriminate. Qed.

Lemma raises_emit (c : call) : raises_only E (emit c).
Proof. intros tr e H. discriminate. Qed.

Lemma raises_lift {A} (m : res A) :
  res_raises_only E m -> raises_only E (lift m).
Proof. intros H tr e He. apply H, He. Qed.

Lemma raises_dbind {A B} (m : draw A) (k : A -> draw B) :
  raises_only E m -> (forall a, raises_only E (k a)) ->
  raises_only E (dbind m k).
Proof.
  intros Hm Hk tr e. unfold dbind.
  specialize (Hm tr). destruct (m tr) as [tr' [e'|a]]; simpl in *.
  - intros H. apply Hm. congruence.
  - apply Hk.
Qed.

Lemma raises_when (b : bool) (m : draw unit) :
  raises_only E m -> raises_only E (when b m).
Proof. destruct b; simpl; [auto | intros _; apply raises_dret]. Qed.

Lemma raises_default_to {A} (x : option A) (d : res A) :
  res_raises_only E d -> raises_only E (default_to x d).
Proof.
  destruct x; simpl; intros H; [apply raises_dret | apply raises_lift, H].
Qed.

Lemma res_raises_ok {A} (a : A) : res_raises_only E (ok a).
Proof. intros e H. discriminate. Qed.

Lemma res_raises_raise {A} (e : exn) : E e -> res_raises_only E (@raise A e).
Proof. intros He e' H. injection H as <-. exact He. Qed.

Lemma res_raises_rbind {A B} (m : res A) (k : A -> res B) :
  res_raises_only E m -> (forall a, res_raises_only E (k a)) ->
  res_raises_only E (rbind m k).
Proof.
  intros Hm Hk e. destruct m as [e'|a]; simpl.
  - intros H. apply Hm. congruence.
  - apply Hk.
Qed.

Lemma res_raises_for_each {A S} (body : S -> A -> res S) (l : list A) :
  (forall s a, res_raises_only E (body s a)) ->
  forall s, res_raises_only E (for_each body l s).
Proof.
  intros Hb. induction l as [|a r IH]; intros s; simpl.
  - apply res_raises_ok.
  - apply res_raises_rbind; auto.
Qed.

End DrawRules.

Lemma get_axes_emits (P : call -> Prop) (ax : option axes) :
  P (plt_subplots 1 1) -> emits_only P (get_axes ax).
Proof.
  intros H. destruct ax; simpl; [apply emits_dret|].
  apply emits_dbind; [apply emits_emit, H | intros; apply emits_dret].
Qed.

Lemma get_axes_raises (E : exn -> Prop) (ax : option axes) :
  raises_only E (get_axes ax).
Proof.
  destruct ax; simpl; [apply raises_dret|].
  apply raises_dbind; [apply raises_emit | intros; apply raises_dret].
Qed.

(** The primitives raise only their own exception. *)
Lemma np_argmin_raises (E : exn -> Prop) (l : list Q) :
  E ValueError_empty_sequence -> res_raises_only E (np_argmin l).
Proof.
  intros H. destruct l; simpl; [apply res_raises_raise, H | apply res_raises_ok].
Qed.

Lemma np_min_raises (E : exn -> Prop) (a : ndarray) :
  E ValueError_empty_sequence -> res_raises_only E (np_min a).
Proof.
  intros H. unfold np_min.
  destruct (ravel a); [apply res_raises_raise, H | apply res_raises_ok].
Qed.

Lemma np_max_raises (E : exn -> Prop) (a : ndarray) :
  E ValueError_empty_sequence -> res_raises_only E (np_max a).
Proof.
  intros H. unfold np_max.
  destruct (ravel a); [apply res_raises_raise, H | apply res_raises_ok].
Qed.

Lemma getitem_raises (E : exn -> Prop) {A} (l : list A) (i : nat) :
  E IndexError -> res_raises_only E (getitem l i).
Proof.
  intros H. unfold getitem.
  destruct (nth_error l i); [apply res_raises_ok | apply res_raises_raise, H].
Qed.

Lemma setitem_raises (E : exn -> Prop) {A} (l : list A) (i : nat) (v : A) :
  E IndexError -> res_raises_only E (setitem l i v).
Proof.
  intros H. revert i. induction l as [|a r IH]; intros [|i]; simpl;
    try (apply res_raises_raise, H); try apply res_raises_ok.
  apply res_raises_rbind; [apply IH | intros; apply res_raises_ok].
Qed.

(** ** The guard on [scores_] *)

(** C7. When the object has no [scores_], [plot_gat_matrix] and
    [plot_gat_slice] both raise the not-scored error, and the trace of
    matplotlib calls is left as it was: nothing is drawn and no axes is
    created. *)
Theorem not_scored_before_drawing (gat : GeneralizationAcrossTime)
    (title : option string) (vmin vmax : option Q) (tlim : option (list Q))
    (xmin xmax ymin ymax : option Q) (ax : option axes) (cmap color : string)
    (show colorbar xlabel ylabel legend : bool) (train_time chance : pyval)
    (tr : list call) :
  scores_ gat = None ->
  plot_gat_matrix gat title vmin vmax tlim ax cmap show colorbar xlabel ylabel tr
    = (tr, inl NotScoredError) /\
  plot_gat_slice gat train_time title xmin xmax ymin ymax ax show color
    xlabel ylabel legend chance tr
    = (tr, inl NotScoredError).
Proof.
  intros H. unfold plot_gat_matrix, plot_gat_slice. rewrite H.
  split; reflexivity.
Qed.

Lemma not_scored_before_drawing_witness :
  plot_gat_matrix_default gat_unscored = ([], inl NotScoredError) /\
  plot_gat_slice_default gat_unscored (PyStr "diagonal") (PyBool true)
    = ([], inl NotScoredError).
Proof.
  apply (not_scored_before_drawing gat_unscored). reflexivity.
Defined.

(** ** The value of [scores] in [plot_gat_slice] *)

(** The exception raised while computing [scores] is the exception of the
    call, raised after the axes was obtained and before anything is drawn
    on it. *)
Lemma plot_gat_slice_raises_early (gat : GeneralizationAcrossTime)
    (gat_scores : list (list Q)) (e : exn)
    (train_time : pyval) (title : option string)
    (xmin xmax ymin ymax : option Q) (ax : option axes) (show : bool)
    (color : string) (xlabel ylabel legend : bool) (chance : pyval)
    (tr : list call) :
  scores_ gat = Some gat_scores ->
  slice_scores gat gat_scores train_time = inl e ->
  plot_gat_slice gat train_time title xmin xmax ymin ymax ax show color
    xlabel ylabel legend chance tr
    = (fst (get_axes ax tr), inl e).
Proof.
  intros Hs He. unfold plot_gat_slice. rewrite Hs.
  unfold dbind at 1. destruct ax as [a|]; simpl.
  - unfold dbind, lift. rewrite He. reflexivity.
  - unfold dbind, lift. rewrite He. reflexivity.
Qed.

(** A call recorded by [m] is still in the trace after a continuation
    that only appends. *)
Lemma in_trace_dbind {A B} (m : draw A) (k : A -> draw B) (c : call)
    (tr : list call) :
  In c (fst (m tr)) ->
  (forall a, emits_only (fun _ => True) (k a)) ->
  In c (fst (dbind m k tr)).
Proof.
  intros Hin Hk. unfold dbind.
  destruct (m tr) as [tr' [e|a]]; simpl in *; [exact Hin|].
  destruct (Hk a tr') as (suf & -> & _).
  apply in_or_app. left. exact Hin.
Qed.

(** Decomposes a goal [emits_only P m] along the structure of [m]; the
    side conditions [P c] are left to [tac]. *)
Ltac emits_with tac :=
  repeat first
    [ apply emits_dbind; [|intros ?]
    | apply emits_default_to
    | apply emits_when
    | apply emits_dret
    | apply emits_lift
    | apply get_axes_emits; tac
    | apply emits_emit; tac
    | match goal with
      | |- emits_only _ (match ?x with _ => _ end) => destruct x
      end ].

(** Once [scores] is computed it is handed to [ax.plot] together with the
    training times. *)
Lemma plot_gat_slice_plots (gat : GeneralizationAcrossTime)
    (gat_scores : list (list Q)) (scores : ndarray)
    (train_time : pyval) (title : option string)
    (xmin xmax ymin ymax : option Q) (ax : option axes) (show : bool)
    (color : string) (xlabel ylabel legend : bool) (chance : pyval)
    (tr : list call) :
  scores_ gat = Some gat_scores ->
  slice_scores gat gat_scores train_time = ok scores ->
  In (ax_plot (train_times_times_ gat) scores color "Classif. score")
     (fst (plot_gat_slice gat train_time title xmin xmax ymin ymax ax show
             color xlabel ylabel legend chance tr)).
Proof.
  intros Hs Hv. unfold plot_gat_slice. rewrite Hs.
  unfold dbind at 1.
  destruct (get_axes ax tr) as [tr1 [e|a]] eqn:Ea.
  { destruct ax; discriminate. }
  unfold dbind at 1. unfold lift at 1. rewrite Hv. unfold ok.
  apply in_trace_dbind.
  - simpl. apply in_or_app. right. left. reflexivity.
  - intros _. unfold chance_level. emits_with ltac:(exact I).
Qed.

(** C5. When every row of testing times has exactly one entry, the value
    plotted for the selector ['diagonal'] is [gat.scores_] itself: its
    entries, in row-major order, are those of the grid, it is what
    [ax.plot] receives, and neither the training times nor the step take
    part in it. *)
Theorem diagonal_of_column_is_scores (gat : GeneralizationAcrossTime)
    (gat_scores : list (list Q)) (title : option string)
    (xmin xmax ymin ymax : option Q) (ax : option axes) (show : bool)
    (color : string) (xlabel ylabel legend : bool) (chance : pyval)
    (tr : list call) :
  scores_ gat = Some gat_scores ->
  Forall (fun t => List.length t = 1%nat) (test_times_times_ gat) ->
  slice_scores gat gat_scores (PyStr "diagonal") = ok (Arr2 gat_scores) /\
  ravel (Arr2 gat_scores) = List.concat gat_scores /\
  In (ax_plot (train_times_times_ gat) (Arr2 gat_scores) color
        "Classif. score")
     (fst (plot_gat_slice gat (PyStr "diagonal") title xmin xmax ymin ymax
             ax show color xlabel ylabel legend chance tr)).
Proof.
  intros Hs Hall. apply only_diagonal_iff in Hall.
  assert (Hv : slice_scores gat gat_scores (PyStr "diagonal")
               = ok (Arr2 gat_scores)).
  { unfold slice_scores. rewrite Hall. reflexivity. }
  split; [exact Hv|]. split; [reflexivity|].
  apply (plot_gat_slice_plots gat gat_scores); assumption.
Qed.

Lemma diagonal_of_column_is_scores_witness :
  slice_scores gat_column [[1]; [2]] (PyStr "diagonal")
    = ok (Arr2 [[1]; [2]]) /\
  ravel (Arr2 [[1]; [2]]) = [1; 2] /\
  In (ax_plot [4; 5] (Arr2 [[1]; [2]]) "b" "Classif. score")
     (fst (plot_gat_slice_default gat_column (PyStr "diagonal") (PyBool true))).
Proof.
  apply (diagonal_of_column_is_scores gat_column [[1]; [2]]).
  - reflexivity.
  - repeat constructor.
Defined.

(** A float selector never counts as ['diagonal']. *)
Lemma float_is_not_diagonal (train_time : pyval) (t : Q) :
  float_value train_time = Some t -> is_diagonal train_time = false.
Proof. destruct train_time; simpl; congruence. Qed.

(** C4, as the code has it.  On an object that is not diagonal-only (some
    row of testing times does not have exactly one entry), with a selector
    of type [float], [np.float64] or [np.float32] and [idx] the index of
    the training time nearest to it: when [idx] is 0 the call raises the
    no-classifier error; when [idx] is not 0 and [gat.scores_] has a row
    [idx], the value plotted is exactly that row. *)
Theorem float_selector_row (gat : GeneralizationAcrossTime)
    (gat_scores : list (list Q)) (train_time : pyval) (t : Q) (idx : nat)
    (title : option string) (xmin xmax ymin ymax : option Q)
    (ax : option axes) (show : bool) (color : string)
    (xlabel ylabel legend : bool) (chance : pyval) (tr : list call) :
  scores_ gat = Some gat_scores ->
  only_diagonal gat = false ->
  float_value train_time = Some t ->
  np_argmin (abs_diff (train_times_times_ gat) t) = ok idx ->
  (idx = 0%nat ->
   snd (plot_gat_slice gat train_time title xmin xmax ymin ymax ax show
          color xlabel ylabel legend chance tr)
   = inl (NoClassifierAtTimeError t)) /\
  (idx <> 0%nat ->
   forall row, nth_error gat_scores idx = Some row ->
     slice_scores gat gat_scores train_time = ok (Arr1 row) /\
     In (ax_plot (train_times_times_ gat) (Arr1 row) color "Classif. score")
        (fst (plot_gat_slice gat train_time title xmin xmax ymin ymax ax
                show color xlabel ylabel legend chance tr))).
Proof.
  intros Hs Hd Hf Hidx.
  assert (Hv : slice_scores gat gat_scores train_time
               = rbind (row_scores gat gat_scores t) (fun v => ok (Arr1 v))).
  { unfold slice_scores.
    rewrite Hd, (float_is_not_diagonal _ _ Hf), Hf. reflexivity. }
  unfold row_scores in Hv. rewrite Hidx in Hv. simpl in Hv.
  split.
  - intros ->. simpl in Hv.
    rewrite (plot_gat_slice_raises_early gat gat_scores
               (ValueError_no_classifier t)); [reflexivity | exact Hs | exact Hv].
  - intros Hnz row Hrow.
    apply Nat.eqb_neq in Hnz. rewrite Hnz in Hv.
    apply getitem_ok in Hrow. rewrite Hrow in Hv. simpl in Hv.
    split; [exact Hv|].
    apply (plot_gat_slice_plots gat gat_scores); assumption.
Qed.

Lemma float_selector_row_witness :
  snd (plot_gat_slice_default gat_shifted (PyFloat (1 # 4)) (PyBool true))
    = inl (NoClassifierAtTimeError (1 # 4)) /\
  slice_scores gat_shifted [[5; 6]; [7; 8]] (NpFloat64 (3 # 4))
    = ok (Arr1 [7; 8]).
Proof.
  split.
  - apply (float_selector_row gat_shifted [[5; 6]; [7; 8]]
             (PyFloat (1 # 4)) (1 # 4) 0); reflexivity.
  - apply (float_selector_row gat_shifted [[5; 6]; [7; 8]]
             (NpFloat64 (3 # 4)) (3 # 4) 1 None None None None None None
             true "b" true true true (PyBool true) []);
      try reflexivity.
    discriminate.
Defined.

(** C4 fails as stated: on a diagonal-only object the selector 3.5 is
    nearest to the training time of index 0, and the call returns a figure
    after plotting the whole of [gat.scores_]. *)
Lemma float_selector_ignored_on_column :
  np_argmin (abs_diff (train_times_times_ gat_column) (7 # 2)) = ok 0%nat /\
  plot_gat_slice_default gat_column (PyFloat (7 # 2)) (PyBool true)
  = ([plt_subplots 1 1;
      ax_plot [4; 5] (Arr2 [[1]; [2]]) "b" "Classif. score";
      ax_axhline (Fin (1 # 2)) "k" (Some "--"%string)
        (Some "Chance level"%string);
      ax_set_ylim [1; 2];
      ax_set_xlabel "Time (s)";
      ax_set_ylabel "Classif. score (%)";
      ax_legend "best";
      plt_show],
     inr (figure_of new_axes)) /\
  snd (plot_gat_slice_default gat_column (PyFloat (7 # 2)) (PyBool true))
  <> inl (NoClassifierAtTimeError (7 # 2)).
Proof.
  split; [reflexivity|]. split; [reflexivity|]. discriminate.
Qed.

(** ** The selector *)

Lemma slice_scores_invalid (gat : GeneralizationAcrossTime)
    (gat_scores : list (list Q)) (train_time : pyval) :
  only_diagonal gat = false ->
  is_diagonal train_time = false ->
  float_value train_time = None ->
  slice_scores gat gat_scores train_time = raise ValueError_train_time.
Proof.
  intros Hd Hs Hf. unfold slice_scores. rewrite Hd, Hs, Hf. reflexivity.
Qed.

(** Decomposes a goal [res_raises_only E m] of the error monad. *)
Ltac res_raises_with tac :=
  repeat first
    [ apply res_raises_rbind; [|intros ?]
    | apply res_raises_ok
    | apply res_raises_for_each; intros ? ?
    | apply np_argmin_raises; tac
    | apply np_min_raises; tac
    | apply np_max_raises; tac
    | apply getitem_raises; tac
    | apply setitem_raises; tac
    | apply res_raises_raise; tac
    | match goal with
      | |- res_raises_only _ (match ?x with _ => _ end) => destruct x
      end ].

(** Decomposes a goal [raises_only E m] of the drawing monad. *)
Ltac raises_with tac :=
  repeat first
    [ apply raises_dbind; [|intros ?]
    | apply raises_dret
    | apply raises_emit
    | apply get_axes_raises
    | apply raises_when
    | apply raises_default_to; res_raises_with tac
    | apply raises_lift; res_raises_with tac
    | match goal with
      | |- raises_only _ (match ?x with _ => _ end) => destruct x
      end ].

(** The message about [train_time] comes from the [else] branch of the
    selector test and from nowhere else. *)
Lemma diagonal_scores_raises (gat : GeneralizationAcrossTime)
    (gat_scores : list (list Q)) :
  res_raises_only not_train_time (diagonal_scores gat gat_scores).
Proof.
  unfold diagonal_scores, diagonal_body.
  res_raises_with ltac:(unfold not_train_time; discriminate).
Qed.

Lemma row_scores_raises (gat : GeneralizationAcrossTime)
    (gat_scores : list (list Q)) (t : Q) :
  res_raises_only not_train_time (row_scores gat gat_scores t).
Proof.
  unfold row_scores.
  res_raises_with ltac:(unfold not_train_time; discriminate).
Qed.

Lemma plot_gat_slice_raises (E : exn -> Prop) (gat : GeneralizationAcrossTime)
    (gat_scores : list (list Q)) (train_time : pyval) (title : option string)
    (xmin xmax ymin ymax : option Q) (ax : option axes) (show : bool)
    (color : string) (xlabel ylabel legend : bool) (chance : pyval) :
  scores_ gat = Some gat_scores ->
  res_raises_only E (slice_scores gat gat_scores train_time) ->
  E ZeroDivisionError -> E AttributeError -> E ValueError_empty_sequence ->
  raises_only E
    (plot_gat_slice gat train_time title xmin xmax ymin ymax ax show color
       xlabel ylabel legend chance).
Proof.
  intros Hs Hv Hz Ha He. unfold plot_gat_slice. rewrite Hs.
  apply raises_dbind; [apply get_axes_raises | intros a].
  apply raises_dbind; [apply raises_lift, Hv | intros scores].
  unfold chance_level.
  raises_with ltac:(assumption).
Qed.

(** C6, as the code has it.  [plot_gat_slice] raises the error about
    [train_time] exactly when the object has scores, is not diagonal-only,
    and the selector is neither the string ['diagonal'] nor of type
    [float], [np.float64] or [np.float32]. *)
Theorem invalid_selector_iff (gat : GeneralizationAcrossTime)
    (train_time : pyval) (title : option string)
    (xmin xmax ymin ymax : option Q) (ax : option axes) (show : bool)
    (color : string) (xlabel ylabel legend : bool) (chance : pyval)
    (tr : list call) :
  snd (plot_gat_slice gat train_time title xmin xmax ymin ymax ax show color
         xlabel ylabel legend chance tr)
  = inl InvalidSelectorError
  <->
  (scores_ gat <> None /\
   only_diagonal gat = false /\
   is_diagonal train_time = false /\
   float_value train_time = None).
Proof.
  split.
  - intros H.
    destruct (scores_ gat) as [gat_scores|] eqn:Hs.
    2:{ unfold plot_gat_slice in H. rewrite Hs in H. discriminate. }
    assert (Hno : res_raises_only not_train_time
                    (slice_scores gat gat_scores train_time) ->
                  False).
    { intros Hv.
      apply (plot_gat_slice_raises not_train_time gat gat_scores train_time
               title xmin xmax ymin ymax ax show color xlabel ylabel legend
               chance Hs Hv) in H; try (unfold not_train_time; discriminate).
      apply H. reflexivity. }
    split; [discriminate|].
    unfold slice_scores in Hno.
    destruct (only_diagonal gat).
    { exfalso. apply Hno. apply res_raises_ok. }
    destruct (is_diagonal train_time).
    { exfalso. apply Hno. apply res_raises_rbind;
        [apply diagonal_scores_raises | intros; apply res_raises_ok]. }
    destruct (float_value train_time).
    { exfalso. apply Hno. apply res_raises_rbind;
        [apply row_scores_raises | intros; apply res_raises_ok]. }
    repeat split.
  - intros (Hs & Hd & Hdiag & Hf).
    destruct (scores_ gat) as [gat_scores|] eqn:Hsc; [|congruence].
    rewrite (plot_gat_slice_raises_early gat gat_scores ValueError_train_time);
      [reflexivity | exact Hsc |].
    apply slice_scores_invalid; assumption.
Qed.

(** C6 fails as stated, in both directions: on a diagonal-only object a
    string other than ['diagonal'] raises nothing and the grid is plotted;
    and a selector that is a number, the int 1, raises the error. *)
Lemma invalid_selector_counterexample :
  plot_gat_slice_default gat_column (PyStr "unsupported-string") (PyBool true)
  = ([plt_subplots 1 1;
      ax_plot [4; 5] (Arr2 [[1]; [2]]) "b" "Classif. score";
      ax_axhline (Fin (1 # 2)) "k" (Some "--"%string)
        (Some "Chance level"%string);
      ax_set_ylim [1; 2];
      ax_set_xlabel "Time (s)";
      ax_set_ylabel "Classif. score (%)";
      ax_legend "best";
      plt_show],
     inr (figure_of new_axes)) /\
  plot_gat_slice_default gat_shifted (PyInt 1) (PyBool true)
  = ([plt_subplots 1 1], inl InvalidSelectorError).
Proof. split; reflexivity. Qed.

(** C9. On an object with scores that is not diagonal-only, every Python
    int given as [train_time] raises the error about [train_time], whatever
    the training times are, while the float of the same value goes through
    the search of the nearest training time. *)
Theorem int_selector_rejected (gat : GeneralizationAcrossTime)
    (gat_scores : list (list Q)) (z : Z) (title : option string)
    (xmin xmax ymin ymax : option Q) (ax : option axes) (show : bool)
    (color : string) (xlabel ylabel legend : bool) (chance : pyval)
    (tr : list call) :
  scores_ gat = Some gat_scores ->
  only_diagonal gat = false ->
  plot_gat_slice gat (PyInt z) title xmin xmax ymin ymax ax show color
    xlabel ylabel legend chance tr
  = (fst (get_axes ax tr), inl InvalidSelectorError) /\
  slice_scores gat gat_scores (PyFloat (inject_Z z))
  = rbind (row_scores gat gat_scores (inject_Z z)) (fun v => ok (Arr1 v)).
Proof.
  intros Hs Hd. split.
  - apply (plot_gat_slice_raises_early gat gat_scores); [exact Hs|].
    apply slice_scores_invalid; [exact Hd | reflexivity | reflexivity].
  - unfold slice_scores. rewrite Hd. reflexivity.
Qed.

(** The int 1 equals the second training time of [gat_shifted]; the float
    1.0 selects the scores of that classifier. *)
Lemma int_selector_rejected_witness :
  In (inject_Z 1) (train_times_times_ gat_shifted) /\
  plot_gat_slice_default gat_shifted (PyInt 1) (PyBool true)
    = ([plt_subplots 1 1], inl InvalidSelectorError) /\
  slice_scores gat_shifted [[5; 6]; [7; 8]] (PyFloat (inject_Z 1))
    = ok (Arr1 [7; 8]).
Proof.
  split; [right; left; reflexivity|].
  apply (int_selector_rejected gat_shifted [[5; 6]; [7; 8]] 1 None None None
           None None None true "b" true true true (PyBool true) []);
    reflexivity.
Defined.

(** ** The diagonal of a grid that is not diagonal-only *)

Lemma find_app {A} (p : A -> bool) (l1 l2 : list A) :
  find p (l1 ++ l2) =
  match find p l1 with
  | Some a => Some a
  | None => find p l2
  end.
Proof.
  induction l1 as [|a r IH]; simpl; [reflexivity|].
  destruct (p a); [reflexivity | exact IH].
Qed.

(** One pass of the inner loop: a row that passes the check writes entry
    [i], a row that does not leaves the array alone. *)
Lemma diagonal_body_ok (gat_scores : list (list Q)) (step : Q) (i : nat)
    (t : Q) (scores test_times scores' : list Q) :
  diagonal_body gat_scores step i t scores test_times = ok scores' ->
  if passes step t test_times then
    exists j row v,
      np_argmin (abs_diff test_times t) = ok j /\
      nth_error gat_scores i = Some row /\
      nth_error row j = Some v /\
      setitem scores i v = ok scores'
  else scores' = scores.
Proof.
  unfold diagonal_body, passes.
  destruct (np_argmin (abs_diff test_times t)) as [e|j]; simpl; [discriminate|].
  unfold getitem at 1.
  destruct (nth_error test_times j) as [tj|]; simpl; [|discriminate].
  destruct (Qle_bool (t - tj) step).
  - unfold getitem.
    destruct (nth_error gat_scores i) as [row|]; simpl; [|discriminate].
    destruct (nth_error row j) as [v|] eqn:Ev; simpl; [|discriminate].
    intros H. exists j, row, v. repeat split; assumption.
  - intros H. injection H as <-. reflexivity.
Qed.

(** The inner loop for one classifier: entry [i] ends up written from the
    last row that passes the check, if there is one. *)
Lemma inner_loop_ok (gat_scores : list (list Q)) (step : Q) (i : nat) (t : Q)
    (rows : list (list Q)) :
  forall scores scores',
    for_each (diagonal_body gat_scores step i t) rows scores = ok scores' ->
    List.length scores' = List.length scores /\
    (forall k, k <> i -> nth_error scores' k = nth_error scores k) /\
    match last_passing step t rows with
    | Some test_times =>
        exists j row v,
          np_argmin (abs_diff test_times t) = ok j /\
          nth_error gat_scores i = Some row /\
          nth_error row j = Some v /\
          nth_error scores' i = Some v
    | None => scores' = scores
    end.
Proof.
  unfold last_passing.
  induction rows as [|r rows IH]; intros scores scores' H; simpl in H.
  - injection H as <-. simpl. auto.
  - destruct (diagonal_body gat_scores step i t scores r) as [e|s1] eqn:Eb;
      simpl in H; [discriminate|].
    apply diagonal_body_ok in Eb.
    destruct (IH _ _ H) as (Hlen & Hother & Hlast).
    simpl rev. rewrite find_app. simpl find.
    destruct (find (passes step t) (rev rows)) as [tt|].
    + destruct (passes step t r).
      * destruct Eb as (j & row & v & _ & _ & _ & Hset).
        apply setitem_ok in Hset. destruct Hset as (L & _ & O).
        repeat split; [congruence | | exact Hlast].
        intros k Hk. rewrite Hother, O; auto.
      * subst s1. auto.
    + subst scores'.
      destruct (passes step t r).
      * destruct Eb as (j & row & v & Hj & Hrow & Hv & Hset).
        apply setitem_ok in Hset. destruct Hset as (L & Hi & O).
        repeat split; [exact L | exact O |].
        exists j, row, v. auto.
      * subst s1. auto.
Qed.

(** The outer loop, started at index [n] on the array [scores]. *)
Lemma outer_loop_ok (gat_scores : list (list Q)) (step : Q)
    (rows : list (list Q)) (times : list Q) :
  forall n scores out,
    for_each
      (fun sc '(i, train_time) =>
         for_each (diagonal_body gat_scores step i train_time) rows sc)
      (enumerate_from n times) scores = ok out ->
    List.length out = List.length scores /\
    (forall k, (k < n)%nat -> nth_error out k = nth_error scores k) /\
    forall i t v,
      nth_error times i = Some t ->
      nth_error out (n + i) = Some v ->
      match last_passing step t rows with
      | Some test_times =>
          exists j row,
            np_argmin (abs_diff test_times t) = ok j /\
            nth_error gat_scores (n + i) = Some row /\
            nth_error row j = Some v
      | None => nth_error scores (n + i) = Some v
      end.
Proof.
  induction times as [|t0 times IH]; intros n scores out H; simpl in H.
  - injection H as <-. repeat split. intros [|i] t v Ht; discriminate.
  - destruct (for_each (diagonal_body gat_scores step n t0) rows scores)
      as [e|s1] eqn:Ein; simpl in H; [discriminate|].
    apply inner_loop_ok in Ein. destruct Ein as (L1 & O1 & Last1).
    destruct (IH _ _ _ H) as (L2 & Before & Rest).
    repeat split.
    + congruence.
    + intros k Hk. rewrite Before by lia. apply O1. lia.
    + intros [|i] t v Ht Hv; simpl in Ht.
      * injection Ht as <-. rewrite Nat.add_0_r in *.
        rewrite Before in Hv by lia.
        destruct (last_passing step t0 rows) as [tt|].
        -- destruct Last1 as (j & row & v' & Hj & Hrow & Hv' & Hi).
           exists j, row. repeat split; congruence.
        -- subst s1. exact Hv.
      * replace (n + S i)%nat with (S n + i)%nat in * by lia.
        specialize (Rest i t v Ht Hv).
        destruct (last_passing step t rows) as [tt|]; [exact Rest|].
        rewrite <- O1 by lia. exact Rest.
Qed.

Lemma nth_error_np_zeros (n k : nat) (v : Q) :
  nth_error (np_zeros n) k = Some v -> v = 0.
Proof.
  unfold np_zeros. intros H. apply nth_error_In in H.
  apply repeat_spec in H. exact H.
Qed.

(** C10. In the diagonal of a grid that is not diagonal-only, the entry of
    the classifier [i] trained at [t] is [gat.scores_[i][j]] where [j] is the
    index of the time nearest to [t] in the last row of testing times, in
    row order, that passes the check of line 163; it is 0 when no row
    passes.  That row need not be row [i]. *)
Theorem diagonal_entry_from_last_passing_row (gat : GeneralizationAcrossTime)
    (gat_scores : list (list Q)) (out : list Q) (i : nat) (t v : Q) :
  diagonal_scores gat gat_scores = ok out ->
  nth_error (train_times_times_ gat) i = Some t ->
  nth_error out i = Some v ->
  match last_passing (train_times_step gat) t (test_times_times_ gat) with
  | Some test_times =>
      exists j row,
        np_argmin (abs_diff test_times t) = ok j /\
        nth_error gat_scores i = Some row /\
        nth_error row j = Some v
  | None => v = 0
  end.
Proof.
  unfold diagonal_scores, enumerate. intros H Ht Hv.
  apply outer_loop_ok in H. destruct H as (_ & _ & H).
  specialize (H i t v Ht Hv). simpl in H.
  destruct (last_passing (train_times_step gat) t (test_times_times_ gat));
    [exact H|].
  apply nth_error_np_zeros in H. exact H.
Qed.

(** On [gat_shifted] the classifier trained at 0 has its own testing times
    [-1; 0], where the nearest index is 1 and the score is 6; the last row
    that passes is [0; 1], where the nearest index is 0, and the entry is
    [gat.scores_[0][0]], that is 5. *)
Lemma diagonal_entry_from_last_passing_row_witness :
  diagonal_scores gat_shifted [[5; 6]; [7; 8]] = ok [5; 8] /\
  np_argmin (abs_diff [-1; 0] 0) = ok 1%nat /\
  last_passing 1 0 [[-1; 0]; [0; 1]] = Some [0; 1] /\
  exists j row,
    np_argmin (abs_diff [0; 1] 0) = ok j /\
    nth_error [[5; 6]; [7; 8]] 0 = Some row /\
    nth_error row j = Some 5.
Proof.
  split; [reflexivity|]. split; [reflexivity|]. split; [reflexivity|].
  apply (diagonal_entry_from_last_passing_row gat_shifted [[5; 6]; [7; 8]]
           [5; 8] 0 0 5); reflexivity.
Defined.

(** ** The time limits of [plot_gat_matrix] *)

(** A call recorded by the continuation is in the trace when the first
    computation returns. *)
Lemma in_trace_after {A B} (m : draw A) (k : A -> draw B) (c : call)
    (tr : list call) (a : A) :
  snd (m tr) = ok a ->
  (forall tr', In c (fst (k a tr'))) ->
  In c (fst (dbind m k tr)).
Proof.
  intros Hm Hk. unfold dbind.
  destruct (m tr) as [tr' [e|a']]; simpl in *; [discriminate|].
  injection Hm as ->. apply Hk.
Qed.

Lemma in_trace_later {A B} (m : draw A) (k : A -> draw B) (c : call)
    (tr : list call) :
  (exists a, snd (m tr) = ok a) ->
  (forall a tr', In c (fst (k a tr'))) ->
  In c (fst (dbind m k tr)).
Proof.
  intros [a Hm] Hk. apply (in_trace_after m k c tr a Hm). apply Hk.
Qed.

(** Steps over a computation that cannot raise: a call, or a call made
    under a test. *)
Ltac skip_call :=
  apply in_trace_later;
  [ first
      [ eexists; reflexivity
      | match goal with
        | |- exists _, snd (when ?b _ _) = _ => destruct b
        | |- exists _, snd ((match ?x with _ => _ end) _) = _ => destruct x
        | |- exists _, snd (get_axes ?x _) = _ => destruct x
        end; eexists; reflexivity ]
  | intros ? ? ].

(** Closes the goal when the call looked for is the next one made. *)
Ltac this_call :=
  apply in_trace_dbind;
  [ simpl; apply in_or_app; right; left; reflexivity
  | intros ?; emits_with ltac:(exact I) ].

Lemma np_min_nonempty (a : ndarray) :
  ravel a <> [] -> exists lo, np_min a = ok lo.
Proof. unfold np_min. destruct (ravel a); [congruence | eauto]. Qed.

Lemma np_max_nonempty (a : ndarray) :
  ravel a <> [] -> exists hi, np_max a = ok hi.
Proof. unfold np_max. destruct (ravel a); [congruence | eauto]. Qed.

(** C8. When [tlim] is not given, and the four entries [tn_times[0][0]],
    [tn_times[-1][-1]], [tt_times[0]] and [tt_times[-1]] exist with values
    [a], [b], [c] and [d], the time limits are [[a; b; c; d]]: testing
    times first, training times second.  On a non-empty grid they are the
    extent of the image, and the limits of the x and y axes are their first
    and second half. *)
Theorem default_time_limits (gat : GeneralizationAcrossTime)
    (gat_scores : list (list Q)) (r0 r1 : list Q) (a b c d : Q)
    (title : option string) (vmin vmax : option Q) (ax : option axes)
    (cmap : string) (show colorbar xlabel ylabel : bool) (tr : list call) :
  scores_ gat = Some gat_scores ->
  List.concat gat_scores <> [] ->
  first (test_times_times_ gat) = ok r0 -> first r0 = ok a ->
  last_item (test_times_times_ gat) = ok r1 -> last_item r1 = ok b ->
  first (train_times_times_ gat) = ok c ->
  last_item (train_times_times_ gat) = ok d ->
  default_tlim gat = ok [a; b; c; d] /\
  exists lo hi,
    let trace :=
      fst (plot_gat_matrix gat title vmin vmax None ax cmap show colorbar
             xlabel ylabel tr) in
    In (ax_imshow gat_scores [a; b; c; d] lo hi cmap) trace /\
    In (ax_set_xlim [a; b]) trace /\
    In (ax_set_ylim [c; d]) trace.
Proof.
  intros Hs Hne H0 Ha H1 Hb Hc Hd.
  assert (Htlim : default_tlim gat = ok [a; b; c; d]).
  { unfold default_tlim. rewrite H0. simpl. rewrite Ha. simpl.
    rewrite H1. simpl. rewrite Hb. simpl. rewrite Hc. simpl.
    rewrite Hd. reflexivity. }
  split; [exact Htlim|].
  destruct (np_min_nonempty (Arr2 gat_scores) Hne) as [lo0 Hlo].
  destruct (np_max_nonempty (Arr2 gat_scores) Hne) as [hi0 Hhi].
  exists (match vmin with Some v => v | None => lo0 end).
  exists (match vmax with Some v => v | None => hi0 end).
  unfold plot_gat_matrix. rewrite Hs. cbv zeta.
  assert (Hvmin : forall t, snd (default_to vmin (np_min (Arr2 gat_scores)) t)
                  = ok (match vmin with Some v => v | None => lo0 end)).
  { intros t. destruct vmin; simpl; [reflexivity | exact Hlo]. }
  assert (Hvmax : forall t, snd (default_to vmax (np_max (Arr2 gat_scores)) t)
                  = ok (match vmax with Some v => v | None => hi0 end)).
  { intros t. destruct vmax; simpl; [reflexivity | exact Hhi]. }
  assert (Ht : forall t, snd (default_to None (default_tlim gat) t)
               = ok [a; b; c; d]).
  { intros t. simpl. exact Htlim. }
  repeat split.
  - skip_call.
    eapply in_trace_after; [apply Hvmin | intros ?].
    eapply in_trace_after; [apply Hvmax | intros ?].
    eapply in_trace_after; [apply Ht | intros ?].
    this_call.
  - skip_call.
    eapply in_trace_after; [apply Hvmin | intros ?].
    eapply in_trace_after; [apply Hvmax | intros ?].
    eapply in_trace_after; [apply Ht | intros ?].
    do 6 skip_call. this_call.
  - skip_call.
    eapply in_trace_after; [apply Hvmin | intros ?].
    eapply in_trace_after; [apply Hvmax | intros ?].
    eapply in_trace_after; [apply Ht | intros ?].
    do 7 skip_call. this_call.
Qed.

Lemma default_time_limits_witness :
  default_tlim gat_shifted = ok [-1; 1; 0; 1] /\
  exists lo hi,
    let trace := fst (plot_gat_matrix_default gat_shifted) in
    In (ax_imshow [[5; 6]; [7; 8]] [-1; 1; 0; 1] lo hi "RdBu_r") trace /\
    In (ax_set_xlim [-1; 1]) trace /\
    In (ax_set_ylim [0; 1]) trace.
Proof.
  apply (default_time_limits gat_shifted [[5; 6]; [7; 8]] [-1; 0] [0; 1]);
    try reflexivity.
  discriminate.
Defined.

(** The check of line 163 is one-sided: a row whose nearest testing time
    is later than the training time passes it, however far that time is. *)
Lemma passes_when_later (step t tj : Q) (test_times : list Q) (j : nat) :
  np_argmin (abs_diff test_times t) = ok j ->
  nth_error test_times j = Some tj ->
  t <= tj -> 0 <= step ->
  passes step t test_times = true.
Proof.
  intros Hj Htj Hle Hstep. unfold passes. rewrite Hj. unfold ok.
  rewrite Htj. apply Qle_bool_iff. lra.
Qed.

(** C1 fails on the code.  On [gat_late] the grid is not diagonal-only,
    the step is 1 and every testing time is more than 1 away from the
    training time 0 of the first classifier; the diagonal nevertheless
    takes [gat.scores_[0][0]], the score at testing time 10, and does not
    keep 0 for that classifier. *)
Theorem diagonal_accepts_distant_testing_time :
  only_diagonal gat_late = false /\
  Forall (Forall (fun u => train_times_step gat_late < Qabs (u - 0)))
    (test_times_times_ gat_late) /\
  nth_error (train_times_times_ gat_late) 0 = Some 0 /\
  slice_scores gat_late [[7; 8]; [9; 10]] (PyStr "diagonal")
  = ok (Arr1 [7; 9]).
Proof.
  split; [reflexivity|]. split.
  - repeat constructor.
  - split; reflexivity.
Qed.

(** ** The chance level *)

Lemma chance_level_accuracy (gat : GeneralizationAcrossTime) (n : nat)
    (tr : list call) :
  scorer_name_ gat = "accuracy_score"%string ->
  List.length (np_unique Z.ltb Z.eqb (y_train_ gat)) = S n ->
  chance_level gat (PyBool true) tr
  = (tr ++ [ax_axhline (Fin (1 # Pos.of_succ_nat n)) "k" (Some "--"%string)
              (Some "Chance level"%string)],
     ok tt).
Proof.
  intros Hn Hl. unfold chance_level. rewrite Hn, Hl. reflexivity.
Qed.

Lemma chance_level_roc_auc (gat : GeneralizationAcrossTime) (tr : list call) :
  scorer_name_ gat = "roc_auc_score"%string ->
  chance_level gat (PyBool true) tr
  = (tr ++ [ax_axhline (Fin (1 # 2)) "k" (Some "--"%string)
              (Some "Chance level"%string)],
     ok tt).
Proof.
  intros Hn. unfold chance_level. rewrite Hn. reflexivity.
Qed.

(** With another scorer, the warning is issued and the line is at NaN when
    [gat.scorer.__name__] can be read. *)
Lemma chance_level_other_named (gat : GeneralizationAcrossTime)
    (name : string) (tr : list call) :
  String.eqb (scorer_name_ gat) "accuracy_score" = false ->
  String.eqb (scorer_name_ gat) "roc_auc_score" = false ->
  scorer_name gat = Some name ->
  chance_level gat (PyBool true) tr
  = (tr ++ [warnings_warn ("Cannot find chance level from " ++ name ++
                           ", specify chance level")%string;
            ax_axhline NaN "k" (Some "--"%string)
              (Some "Chance level"%string)],
     ok tt).
Proof.
  intros H1 H2 Hn. unfold chance_level. rewrite H1, H2, Hn.
  unfold dbind, emit. simpl. rewrite <- app_assoc. reflexivity.
Qed.

(** With another scorer, nothing is recorded and [AttributeError] is raised
    when the object has no [scorer]. *)
Lemma chance_level_other_unnamed (gat : GeneralizationAcrossTime)
    (tr : list call) :
  String.eqb (scorer_name_ gat) "accuracy_score" = false ->
  String.eqb (scorer_name_ gat) "roc_auc_score" = false ->
  scorer_name gat = None ->
  chance_level gat (PyBool true) tr = (tr, inl AttributeError).
Proof.
  intros H1 H2 Hn. unfold chance_level. rewrite H1, H2, Hn. reflexivity.
Qed.

(** C2 fails on the code.  With a float given for [chance], whatever the
    object and the other arguments, no call to [ax.axhline] is made: the
    call sits inside the [if chance is True:] block. *)
Theorem float_chance_draws_no_line (gat : GeneralizationAcrossTime)
    (train_time : pyval) (title : option string)
    (xmin xmax ymin ymax : option Q) (ax : option axes) (show : bool)
    (color : string) (xlabel ylabel legend : bool) (x : Q) :
  Forall (fun c => is_axhline c = false)
    (fst (plot_gat_slice gat train_time title xmin xmax ymin ymax ax show
            color xlabel ylabel legend (PyFloat x) [])).
Proof.
  assert (H : emits_only (fun c => is_axhline c = false)
                (plot_gat_slice gat train_time title xmin xmax ymin ymax ax
                   show color xlabel ylabel legend (PyFloat x))).
  { unfold plot_gat_slice, chance_level.
    destruct (scores_ gat); emits_with ltac:(reflexivity). }
  destruct (H []) as (suf & -> & Hsuf). exact Hsuf.
Qed.

(** The same call with [chance=0.5] and with [chance=True] on an object
    scored with [roc_auc_score]: only the second draws the line at 0.5. *)
Lemma float_chance_trace :
  plot_gat_slice_default gat_late (PyStr "diagonal") (PyFloat (1 # 2))
  = ([plt_subplots 1 1;
      ax_plot [0; 1] (Arr1 [7; 9]) "b" "Classif. score";
      ax_set_ylim [7; 9];
      ax_set_xlabel "Time (s)";
      ax_set_ylabel "Classif. score (AUC)";
      ax_legend "best";
      plt_show],
     inr (figure_of new_axes)) /\
  plot_gat_slice_default gat_late (PyStr "diagonal") (PyBool true)
  = ([plt_subplots 1 1;
      ax_plot [0; 1] (Arr1 [7; 9]) "b" "Classif. score";
      ax_axhline (Fin (1 # 2)) "k" (Some "--"%string)
        (Some "Chance level"%string);
      ax_set_ylim [7; 9];
      ax_set_xlabel "Time (s)";
      ax_set_ylabel "Classif. score (AUC)";
      ax_legend "best";
      plt_show],
     inr (figure_of new_axes)).
Proof. split; reflexivity. Qed.

(** C3 holds for the two scorers the code knows: four distinct labels
    give the line at 1/4 ([gat_shifted]), [roc_auc_score] gives the line at
    1/2 ([gat_late]).  It fails for any other scorer on an object that has
    [scorer_] but no [scorer]: the warning message is built from
    [gat.scorer.__name__], so [AttributeError] is raised, no warning is
    issued and the call stops after [ax.plot].  On an object that also has
    [scorer] the warning is issued and the line is drawn at NaN. *)
Theorem chance_level_of_scorer :
  chance_level gat_shifted (PyBool true) []
  = ([ax_axhline (Fin (1 # 4)) "k" (Some "--"%string)
        (Some "Chance level"%string)], ok tt) /\
  chance_level gat_late (PyBool true) []
  = ([ax_axhline (Fin (1 # 2)) "k" (Some "--"%string)
        (Some "Chance level"%string)], ok tt) /\
  plot_gat_slice_default gat_f1 (PyStr "diagonal") (PyBool true)
  = ([plt_subplots 1 1;
      ax_plot [0; 1] (Arr1 [5; 8]) "b" "Classif. score"],
     inl AttributeError) /\
  plot_gat_slice_default gat_f1_named (PyStr "diagonal") (PyBool true)
  = ([plt_subplots 1 1;
      ax_plot [0; 1] (Arr1 [5; 8]) "b" "Classif. score";
      warnings_warn "Cannot find chance level from f1_score, specify chance level";
      ax_axhline NaN "k" (Some "--"%string) (Some "Chance level"%string);
      ax_set_ylim [5; 8];
      ax_set_xlabel "Time (s)";
      ax_set_ylabel "Classif. score (%)";
      ax_legend "best";
      plt_show],
     inr (figure_of new_axes)).
Proof. repeat split. Qed.

(** ** The diagonal is computed on a well-formed grid *)

Lemma for_each_invariant {A S} (I : S -> Prop) (body : S -> A -> res S)
    (l : list A) :
  (forall s a, In a l -> I s -> exists s', body s a = ok s' /\ I s') ->
  forall s, I s -> exists s', for_each body l s = ok s' /\ I s'.
Proof.
  induction l as [|a r IH]; intros Hb s Hs; simpl.
  - eauto.
  - destruct (Hb s a (or_introl eq_refl) Hs) as (s1 & E1 & I1).
    rewrite E1. simpl. apply IH; [|exact I1].
    intros s2 b Hin. apply Hb. right. exact Hin.
Qed.

Lemma setitem_in_range {A} (l : list A) (i : nat) (v : A) :
  (i < List.length l)%nat -> exists l', setitem l i v = ok l'.
Proof.
  revert i. induction l as [|a r IH]; intros [|i] H; simpl in *; try lia.
  - eauto.
  - destruct (IH i) as (r' & E); [lia|]. rewrite E. simpl. eauto.
Qed.

Lemma in_enumerate_from {A} (l : list A) (n i : nat) (a : A) :
  In (i, a) (enumerate_from n l) -> (n <= i < n + List.length l)%nat.
Proof.
  revert n. induction l as [|b r IH]; intros n H; simpl in H; [contradiction|].
  destruct H as [H|H].
  - injection H as <- <-. simpl. lia.
  - apply IH in H. simpl. lia.
Qed.

(** When every row of testing times is non-empty, there is a row of scores
    for every training time, and every row of scores has an entry for every
    index of every row of testing times, the loops of lines 157-164 raise
    nothing and return one entry per row of [gat.scores_]. *)
Lemma diagonal_scores_returns (gat : GeneralizationAcrossTime)
    (gat_scores : list (list Q)) (width : nat) :
  (List.length (train_times_times_ gat) <= List.length gat_scores)%nat ->
  Forall (fun t => t <> [] /\ (List.length t <= width)%nat)
    (test_times_times_ gat) ->
  Forall (fun row => (width <= List.length row)%nat) gat_scores ->
  exists out,
    diagonal_scores gat gat_scores = ok out /\
    List.length out = List.length gat_scores.
Proof.
  intros Hrows Htest Hwide. unfold diagonal_scores, enumerate.
  rewrite Forall_forall in Htest, Hwide.
  apply for_each_invariant;
    [|unfold np_zeros; apply repeat_length].
  intros sc [i t] Hin Hsc. apply in_enumerate_from in Hin.
  apply for_each_invariant; [|exact Hsc].
  intros sc1 test_times Hrow Hsc1.
  destruct (Htest _ Hrow) as (Hne & Hw).
  unfold diagonal_body.
  destruct (np_argmin_nonempty (abs_diff test_times t)) as (j & Ej).
  { destruct test_times; [congruence | discriminate]. }
  rewrite Ej. simpl.
  destruct (np_argmin_spec _ _ Ej) as (m & Hm & _).
  assert (Hj : (j < List.length test_times)%nat).
  { assert (Hlt : (j < List.length (abs_diff test_times t))%nat)
      by (apply nth_error_Some; congruence).
    unfold abs_diff in Hlt. rewrite length_map in Hlt. exact Hlt. }
  unfold getitem at 1.
  destruct (nth_error test_times j) as [tj|] eqn:Etj;
    [|apply nth_error_None in Etj; lia].
  simpl. destruct (Qle_bool (t - tj) (train_times_step gat)); [|eauto].
  unfold getitem.
  destruct (nth_error gat_scores i) as [row|] eqn:Erow;
    [|apply nth_error_None in Erow; lia].
  simpl. specialize (Hwide row (nth_error_In _ _ Erow)).
  destruct (nth_error row j) as [v|] eqn:Ev;
    [|apply nth_error_None in Ev; lia].
  simpl. destruct (setitem_in_range sc1 i v) as (sc2 & E2); [lia|].
  rewrite E2. exists sc2. split; [reflexivity|].
  apply setitem_ok in E2. destruct E2 as (L & _). congruence.
Qed.

(** * Further properties of the two functions *)

(** ** Minimum, maximum and distinct elements *)

Lemma Qlt_bool_false (x y : Q) : Qlt_bool x y = false <-> y <= x.
Proof.
  unfold Qlt_bool. rewrite negb_false_iff. apply Qle_bool_iff.
Qed.

Lemma min_from_spec (l : list Q) :
  forall best,
    (min_from best l = best \/ In (min_from best l) l) /\
    min_from best l <= best /\
    forall x, In x l -> min_from best l <= x.
Proof.
  induction l as [|y r IH]; intros best; simpl.
  - repeat split; [left; reflexivity | lra | contradiction].
  - destruct (Qlt_bool y best) eqn:E.
    + apply Qlt_bool_iff in E.
      destruct (IH y) as (Hin & Hle & Hlow). repeat split.
      * right. destruct Hin as [->|Hin]; [left; reflexivity | right; exact Hin].
      * lra.
      * intros x [<-|Hx]; [exact Hle | apply Hlow, Hx].
    + apply Qlt_bool_false in E.
      destruct (IH best) as (Hin & Hle & Hlow). repeat split.
      * destruct Hin as [->|Hin]; [left; reflexivity | right; right; exact Hin].
      * exact Hle.
      * intros x [<-|Hx]; [lra | apply Hlow, Hx].
Qed.

Lemma max_from_spec (l : list Q) :
  forall best,
    (max_from best l = best \/ In (max_from best l) l) /\
    best <= max_from best l /\
    forall x, In x l -> x <= max_from best l.
Proof.
  induction l as [|y r IH]; intros best; simpl.
  - repeat split; [left; reflexivity | lra | contradiction].
  - destruct (Qlt_bool best y) eqn:E.
    + apply Qlt_bool_iff in E.
      destruct (IH y) as (Hin & Hle & Hlow). repeat split.
      * right. destruct Hin as [->|Hin]; [left; reflexivity | right; exact Hin].
      * lra.
      * intros x [<-|Hx]; [exact Hle | apply Hlow, Hx].
    + apply Qlt_bool_false in E.
      destruct (IH best) as (Hin & Hle & Hlow). repeat split.
      * destruct Hin as [->|Hin]; [left; reflexivity | right; right; exact Hin].
      * exact Hle.
      * intros x [<-|Hx]; [lra | apply Hlow, Hx].
Qed.

(** [np.min] returns an entry of the array that is below all the others. *)
Lemma np_min_spec (a : ndarray) (m : Q) :
  np_min a = ok m -> In m (ravel a) /\ forall x, In x (ravel a) -> m <= x.
Proof.
  unfold np_min. destruct (ravel a) as [|y r]; [discriminate|].
  intros H. injection H as <-.
  destruct (min_from_spec r y) as (Hin & Hle & Hlow). split.
  - destruct Hin as [->|Hin]; [left; reflexivity | right; exact Hin].
  - intros x [<-|Hx]; [exact Hle | apply Hlow, Hx].
Qed.

Lemma np_max_spec (a : ndarray) (m : Q) :
  np_max a = ok m -> In m (ravel a) /\ forall x, In x (ravel a) -> x <= m.
Proof.
  unfold np_max. destruct (ravel a) as [|y r]; [discriminate|].
  intros H. injection H as <-.
  destruct (max_from_spec r y) as (Hin & Hle & Hlow). split.
  - destruct Hin as [->|Hin]; [left; reflexivity | right; exact Hin].
  - intros x [<-|Hx]; [exact Hle | apply Hlow, Hx].
Qed.

(** ** Running a drawing computation step by step *)

Lemma dbind_run {A B} (m : draw A) (k : A -> draw B) (tr : list call) (a : A) :
  snd (m tr) = ok a -> dbind m k tr = k a (fst (m tr)).
Proof.
  unfold dbind. destruct (m tr) as [tr' [e|a']]; simpl; [discriminate|].
  intros H. injection H as ->. reflexivity.
Qed.

Lemma dbind_fail {A B} (m : draw A) (k : A -> draw B) (tr : list call)
    (e : exn) :
  snd (m tr) = inl e -> dbind m k tr = (fst (m tr), inl e).
Proof.
  unfold dbind. destruct (m tr) as [tr' [e'|a']]; simpl; [|discriminate].
  intros H. injection H as ->. reflexivity.
Qed.

Lemma dbind_ok_inv {A B} (m : draw A) (k : A -> draw B) (tr : list call)
    (b : B) :
  snd (dbind m k tr) = ok b ->
  exists a, snd (m tr) = ok a /\ dbind m k tr = k a (fst (m tr)).
Proof.
  unfold dbind. destruct (m tr) as [tr' [e|a]]; simpl; [discriminate|].
  intros _. exists a. split; reflexivity.
Qed.

Lemma dbind_step {A B} (m : draw A) (k : A -> draw B) (tr tr' : list call)
    (a : A) :
  m tr = (tr', ok a) -> dbind m k tr = k a tr'.
Proof. intros H. unfold dbind. rewrite H. reflexivity. Qed.

Lemma dbind_stop {A B} (m : draw A) (k : A -> draw B) (tr tr' : list call)
    (e : exn) :
  m tr = (tr', inl e) -> dbind m k tr = (tr', inl e).
Proof. intros H. unfold dbind. rewrite H. reflexivity. Qed.

Lemma default_to_run {A} (x : option A) (d : res A) (tr : list call) :
  default_to x d tr = (tr, option_or x d).
Proof. destruct x; reflexivity. Qed.

Lemma get_axes_run (ax : option axes) (tr : list call) :
  get_axes ax tr = (tr ++ subplots_call ax, ok (axes_used ax)).
Proof.
  destruct ax; simpl; [rewrite app_nil_r|]; reflexivity.
Qed.

Lemma when_run (b : bool) (c : call) (tr : list call) :
  when b (emit c) tr = (tr ++ if_call b c, ok tt).
Proof.
  destruct b; simpl; [|rewrite app_nil_r]; reflexivity.
Qed.

(** ** [plot_gat_matrix], call by call *)

Lemma emit_run (c : call) (tr : list call) :
  emit c tr = (tr ++ [c], ok tt).
Proof. reflexivity. Qed.

Lemma title_run (title : option string) (tr : list call) :
  match title with
  | Some t => emit (ax_set_title t)
  | None => dret tt
  end tr = (tr ++ title_call title, ok tt).
Proof.
  destruct title; simpl; [|rewrite app_nil_r]; reflexivity.
Qed.

(** The calls made by [plot_gat_matrix] once the colour and time limits are
    known, in the order in which they are made. *)
Lemma plot_gat_matrix_run (gat : GeneralizationAcrossTime)
    (gat_scores : list (list Q)) (lo hi : Q) (tl : list Q)
    (title : option string) (vmin vmax : option Q) (tlim : option (list Q))
    (ax : option axes) (cmap : string) (show colorbar xlabel ylabel : bool)
    (tr : list call) :
  scores_ gat = Some gat_scores ->
  option_or vmin (np_min (Arr2 gat_scores)) = ok lo ->
  option_or vmax (np_max (Arr2 gat_scores)) = ok hi ->
  option_or tlim (default_tlim gat) = ok tl ->
  plot_gat_matrix gat title vmin vmax tlim ax cmap show colorbar xlabel ylabel tr
  = (tr ++ subplots_call ax
        ++ [ax_imshow gat_scores tl lo hi cmap]
        ++ if_call xlabel (ax_set_xlabel "Testing Time (s)")
        ++ if_call ylabel (ax_set_ylabel "Training Time (s)")
        ++ title_call title
        ++ [ax_axvline 0 "k"; ax_axhline (Fin 0) "k" None None;
            ax_set_xlim (firstn 2 tl); ax_set_ylim (skipn 2 tl)]
        ++ if_call colorbar plt_colorbar
        ++ if_call show plt_show,
     ok (figure_of (axes_used ax))).
Proof.
  intros Hs Hlo Hhi Htl. unfold plot_gat_matrix. rewrite Hs.
  erewrite dbind_step by apply get_axes_run.
  erewrite dbind_step by (rewrite default_to_run, Hlo; reflexivity).
  erewrite dbind_step by (rewrite default_to_run, Hhi; reflexivity).
  erewrite dbind_step by (rewrite default_to_run, Htl; reflexivity).
  erewrite dbind_step by apply emit_run.
  erewrite dbind_step by apply when_run.
  erewrite dbind_step by apply when_run.
  erewrite dbind_step by apply title_run.
  do 4 (erewrite dbind_step by apply emit_run).
  erewrite dbind_step by apply when_run.
  erewrite dbind_step by apply when_run.
  unfold dret. repeat rewrite <- app_assoc. reflexivity.
Qed.

(** The first limit that cannot be computed gives the exception of the
    call; the axes has been obtained by then and nothing is drawn on it. *)
Lemma plot_gat_matrix_fail (gat : GeneralizationAcrossTime)
    (gat_scores : list (list Q)) (e : exn)
    (title : option string) (vmin vmax : option Q) (tlim : option (list Q))
    (ax : option axes) (cmap : string) (show colorbar xlabel ylabel : bool)
    (tr : list call) :
  scores_ gat = Some gat_scores ->
  rbind (option_or vmin (np_min (Arr2 gat_scores))) (fun _ =>
    rbind (option_or vmax (np_max (Arr2 gat_scores))) (fun _ =>
      option_or tlim (default_tlim gat))) = inl e ->
  plot_gat_matrix gat title vmin vmax tlim ax cmap show colorbar xlabel ylabel tr
  = (tr ++ subplots_call ax, inl e).
Proof.
  intros Hs He. unfold plot_gat_matrix. rewrite Hs.
  erewrite dbind_step by apply get_axes_run.
  destruct (option_or vmin (np_min (Arr2 gat_scores))) as [e1|lo] eqn:E1;
    simpl in He.
  { injection He as <-.
    apply dbind_stop. rewrite default_to_run, E1. reflexivity. }
  erewrite dbind_step by (rewrite default_to_run, E1; reflexivity).
  destruct (option_or vmax (np_max (Arr2 gat_scores))) as [e2|hi] eqn:E2;
    simpl in He.
  { injection He as <-.
    apply dbind_stop. rewrite default_to_run, E2. reflexivity. }
  erewrite dbind_step by (rewrite default_to_run, E2; reflexivity).
  apply dbind_stop. rewrite default_to_run, He. reflexivity.
Qed.

Lemma rbind_ok {A B} (a : A) (k : A -> res B) : rbind (ok a) k = k a.
Proof. reflexivity. Qed.

Lemma rbind_ok_inv {A B} (m : res A) (k : A -> res B) (b : B) :
  rbind m k = ok b -> exists a, m = ok a /\ k a = ok b.
Proof.
  destruct m as [e|a]; simpl; [discriminate|]. intros H. exists a. auto.
Qed.

Lemma first_hd {A} (l : list A) (d : A) : l <> [] -> first l = ok (hd d l).
Proof. destruct l; [congruence | reflexivity]. Qed.

Lemma first_ok {A} (l : list A) (d a : A) :
  first l = ok a -> l <> [] /\ a = hd d l.
Proof.
  destruct l as [|x r]; [discriminate|].
  intros H. injection H as <-. split; [discriminate | reflexivity].
Qed.

Lemma last_item_last {A} (l : list A) (d : A) :
  l <> [] -> last_item l = ok (last l d).
Proof.
  induction l as [|a r IH]; [congruence|]. intros _.
  destruct r as [|b r']; [reflexivity|].
  change (last_item (b :: r') = ok (last (b :: r') d)).
  apply IH. discriminate.
Qed.

Lemma last_item_ok {A} (l : list A) (d a : A) :
  last_item l = ok a -> l <> [] /\ a = last l d.
Proof.
  intros H. assert (Hne : l <> []) by (intros ->; discriminate).
  split; [exact Hne|].
  rewrite (last_item_last l d Hne) in H. injection H as <-. reflexivity.
Qed.

Lemma last_item_raises (E : exn -> Prop) {A} (l : list A) :
  E IndexError -> res_raises_only E (last_item l).
Proof.
  intros H. induction l as [|a r IH]; simpl.
  - apply res_raises_raise, H.
  - destruct r; [apply res_raises_ok | exact IH].
Qed.

Lemma default_tlim_raises (gat : GeneralizationAcrossTime) :
  res_raises_only (fun e => e = IndexError) (default_tlim gat).
Proof.
  unfold default_tlim, first.
  repeat first
    [ apply res_raises_rbind; [|intros ?]
    | apply res_raises_ok
    | apply getitem_raises; reflexivity
    | apply last_item_raises; reflexivity ].
Qed.

(** The default time limits exist exactly when there is a training time,
    there is a row of testing times, and the first and the last of these
    rows are not empty; they are then the first entry of the first row, the
    last entry of the last row, and the first and last training times.
    Otherwise computing them raises [IndexError]. *)
Theorem default_tlim_defined_iff (gat : GeneralizationAcrossTime) :
  let tt_times := train_times_times_ gat in
  let tn_times := test_times_times_ gat in
  ((exists tl, default_tlim gat = ok tl)
   <->
   tt_times <> [] /\ tn_times <> [] /\
   hd [] tn_times <> [] /\ last tn_times [] <> []) /\
  (forall tl, default_tlim gat = ok tl ->
     tl = [hd 0 (hd [] tn_times); last (last tn_times []) 0;
           hd 0 tt_times; last tt_times 0]) /\
  (forall e, default_tlim gat = inl e -> e = IndexError).
Proof.
  cbv zeta.
  assert (Hinv : forall tl, default_tlim gat = ok tl ->
            (train_times_times_ gat <> [] /\ test_times_times_ gat <> [] /\
             hd [] (test_times_times_ gat) <> [] /\
             last (test_times_times_ gat) [] <> []) /\
            tl = [hd 0 (hd [] (test_times_times_ gat));
                  last (last (test_times_times_ gat) []) 0;
                  hd 0 (train_times_times_ gat);
                  last (train_times_times_ gat) 0]).
  { intros tl H. unfold default_tlim in H.
    apply rbind_ok_inv in H. destruct H as (r0 & H0 & H).
    apply rbind_ok_inv in H. destruct H as (a & Ha & H).
    apply rbind_ok_inv in H. destruct H as (r1 & H1 & H).
    apply rbind_ok_inv in H. destruct H as (b & Hb & H).
    apply rbind_ok_inv in H. destruct H as (c & Hc & H).
    apply rbind_ok_inv in H. destruct H as (d & Hd & H).
    injection H as <-.
    apply (first_ok _ []) in H0. destruct H0 as (N0 & ->).
    apply (first_ok _ 0) in Ha. destruct Ha as (Na & ->).
    apply (last_item_ok _ []) in H1. destruct H1 as (N1 & ->).
    apply (last_item_ok _ 0) in Hb. destruct Hb as (Nb & ->).
    apply (first_ok _ 0) in Hc. destruct Hc as (Nc & ->).
    apply (last_item_ok _ 0) in Hd. destruct Hd as (Nd & ->).
    repeat split; assumption. }
  split; [split|split].
  - intros [tl H]. apply Hinv in H. apply H.
  - intros (Htt & Htn & Hfirst & Hlast). unfold default_tlim.
    rewrite (first_hd _ [] Htn), rbind_ok.
    rewrite (first_hd _ 0 Hfirst), rbind_ok.
    rewrite (last_item_last _ [] Htn), rbind_ok.
    rewrite (last_item_last _ 0 Hlast), rbind_ok.
    rewrite (first_hd _ 0 Htt), rbind_ok.
    rewrite (last_item_last _ 0 Htt), rbind_ok.
    eexists. reflexivity.
  - intros tl H. apply Hinv in H. apply H.
  - apply default_tlim_raises.
Qed.



Lemma option_or_raises (E : exn -> Prop) {A} (x : option A) (d : res A) :
  res_raises_only E d -> res_raises_only E (option_or x d).
Proof. destruct x; simpl; [intros _; apply res_raises_ok | auto]. Qed.




(** ** Selecting a classifier by its training time *)

Lemma argmin_from_stays (l : list Q) :
  forall best bi i,
    (forall x, In x l -> best <= x) -> argmin_from best bi i l = bi.
Proof.
  induction l as [|x r IH]; intros best bi i H; simpl; [reflexivity|].
  assert (E : Qlt_bool x best = false).
  { apply Qlt_bool_false. apply H. left. reflexivity. }
  rewrite E. apply IH. intros y Hy. apply H. right. exact Hy.
Qed.

Lemma Qabs_diff_self (t : Q) : Qabs (t - t) == 0.
Proof.
  assert (H : t - t == 0) by ring. rewrite H. reflexivity.
Qed.

Lemma Qabs_le_0 (x : Q) : Qabs x <= 0 -> x == 0.
Proof.
  intros H. apply Qabs_Qle_condition in H. destruct H as (H1 & H2).
  apply Qle_antisym; [exact H2|]. exact H1.
Qed.

(** Among distinct times, the index of the time nearest to one of them is
    the index of that time. *)
Lemma np_argmin_exact (times : list Q) (k : nat) (t : Q) :
  distinct_times times ->
  nth_error times k = Some t ->
  np_argmin (abs_diff times t) = ok k.
Proof.
  intros Hd Hk.
  destruct (np_argmin_nonempty (abs_diff times t)) as (j & Hj).
  { destruct times; [destruct k; discriminate | discriminate]. }
  rewrite Hj. f_equal.
  destruct (np_argmin_nearest _ _ _ Hj) as (tj & Htj & Hmin).
  specialize (Hmin t (nth_error_In _ _ Hk)).
  pose proof (Qabs_diff_self t) as H0.
  assert (Hle : Qabs (tj - t) <= 0) by lra.
  apply Qabs_le_0 in Hle.
  apply (Hd j k tj t Htj Hk). lra.
Qed.

(** The classifier trained first can never be selected by its training
    time: on an object with scores that is not diagonal-only, a float equal
    to the first training time raises the no-classifier error, whatever the
    other training times are. *)
Theorem first_training_time_is_rejected (gat : GeneralizationAcrossTime)
    (gat_scores : list (list Q)) (train_time : pyval) (t0 : Q)
    (rest : list Q) (title : option string) (xmin xmax ymin ymax : option Q)
    (ax : option axes) (show : bool) (color : string)
    (xlabel ylabel legend : bool) (chance : pyval) (tr : list call) :
  scores_ gat = Some gat_scores ->
  only_diagonal gat = false ->
  train_times_times_ gat = t0 :: rest ->
  float_value train_time = Some t0 ->
  plot_gat_slice gat train_time title xmin xmax ymin ymax ax show color
    xlabel ylabel legend chance tr
  = (tr ++ subplots_call ax, inl (ValueError_no_classifier t0)).
Proof.
  intros Hs Hd Ht Hf.
  rewrite (plot_gat_slice_raises_early gat gat_scores
             (ValueError_no_classifier t0)); [|exact Hs|].
  - rewrite get_axes_run. reflexivity.
  - unfold slice_scores.
    rewrite Hd, (float_is_not_diagonal _ _ Hf), Hf.
    unfold row_scores. rewrite Ht.
    change (np_argmin (abs_diff (t0 :: rest) t0))
      with (@ok nat (argmin_from (Qabs (t0 - t0)) 0 1 (abs_diff rest t0))).
    rewrite argmin_from_stays; [reflexivity|].
    intros x Hx. apply in_map_iff in Hx. destruct Hx as (u & <- & _).
    pose proof (Qabs_diff_self t0) as H0.
    pose proof (Qabs_nonneg (u - t0)) as H1. lra.
Qed.

Lemma first_training_time_is_rejected_witness :
  plot_gat_slice_default gat_square (PyFloat 0) (PyBool true)
  = ([plt_subplots 1 1], inl (ValueError_no_classifier 0)).
Proof.
  apply (first_training_time_is_rejected gat_square
           [[1; 2; 3]; [4; 5; 6]; [7; 8; 9]] (PyFloat 0) 0 [1; 2]);
    reflexivity.
Defined.

(** When the training times are distinct, a float equal to a training time
    other than the first selects exactly the row of scores of the classifier
    trained at that time. *)
Theorem exact_training_time_selects_its_row (gat : GeneralizationAcrossTime)
    (gat_scores : list (list Q)) (train_time : pyval) (t : Q) (k : nat)
    (row : list Q) :
  only_diagonal gat = false ->
  distinct_times (train_times_times_ gat) ->
  float_value train_time = Some t ->
  nth_error (train_times_times_ gat) k = Some t ->
  k <> 0%nat ->
  nth_error gat_scores k = Some row ->
  slice_scores gat gat_scores train_time = ok (Arr1 row).
Proof.
  intros Hd Hdist Hf Hk Hnz Hrow. unfold slice_scores.
  rewrite Hd, (float_is_not_diagonal _ _ Hf), Hf.
  unfold row_scores. rewrite (np_argmin_exact _ k t Hdist Hk).
  rewrite rbind_ok. apply Nat.eqb_neq in Hnz. rewrite Hnz.
  apply getitem_ok in Hrow. rewrite Hrow. reflexivity.
Qed.

Lemma distinct_times_012 : distinct_times [0; 1; 2].
Proof.
  intros i j ti tj Hi Hj Heq.
  destruct i as [|[|[|i]]]; simpl in Hi; try (destruct i; discriminate);
  destruct j as [|[|[|j]]]; simpl in Hj; try (destruct j; discriminate);
  injection Hi as <-; injection Hj as <-; try reflexivity;
  exfalso; revert Heq; unfold Qeq; simpl; lia.
Qed.

Lemma exact_training_time_selects_its_row_witness :
  slice_scores gat_square [[1; 2; 3]; [4; 5; 6]; [7; 8; 9]] (NpFloat32 2)
  = ok (Arr1 [7; 8; 9]).
Proof.
  apply (exact_training_time_selects_its_row gat_square
           [[1; 2; 3]; [4; 5; 6]; [7; 8; 9]] (NpFloat32 2) 2 2);
    try reflexivity.
  - apply distinct_times_012.
  - discriminate.
Defined.

(** ** More on the diagonal *)

Lemma find_all_false {A} (p : A -> bool) (l : list A) :
  (forall x, In x l -> p x = false) -> find p l = None.
Proof.
  induction l as [|a r IH]; intros H; simpl; [reflexivity|].
  rewrite (H a (or_introl eq_refl)). apply IH.
  intros x Hx. apply H. right. exact Hx.
Qed.

Lemma find_all_true {A} (p : A -> bool) (l : list A) :
  l <> [] -> (forall x, In x l -> p x = true) ->
  exists x, find p l = Some x /\ In x l.
Proof.
  destruct l as [|a r]; [congruence|]. intros _ H. simpl.
  rewrite (H a (or_introl eq_refl)). exists a. split; [reflexivity|].
  left. reflexivity.
Qed.

(** A row all of whose testing times are more than [step] before the
    training time does not pass the check. *)
Lemma passes_false_when_early (step t : Q) (test_times : list Q) :
  (forall u, In u test_times -> step < t - u) ->
  passes step t test_times = false.
Proof.
  intros H. unfold passes.
  destruct (np_argmin (abs_diff test_times t)) as [e|j]; [reflexivity|].
  destruct (nth_error test_times j) as [tj|] eqn:E; [|reflexivity].
  apply nth_error_In in E. specialize (H tj E).
  destruct (Qle_bool (t - tj) step) eqn:Ele; [|reflexivity].
  apply Qle_bool_iff in Ele. lra.
Qed.

(** The outer loop leaves alone the entries past the last training time. *)
Lemma outer_loop_beyond (gat_scores : list (list Q)) (step : Q)
    (rows : list (list Q)) (times : list Q) :
  forall n scores out,
    for_each
      (fun sc '(i, train_time) =>
         for_each (diagonal_body gat_scores step i train_time) rows sc)
      (enumerate_from n times) scores = ok out ->
    forall k, (n + List.length times <= k)%nat ->
      nth_error out k = nth_error scores k.
Proof.
  induction times as [|t0 times IH]; intros n scores out H k Hk; simpl in H.
  - injection H as <-. reflexivity.
  - destruct (for_each (diagonal_body gat_scores step n t0) rows scores)
      as [e|s1] eqn:Ein; simpl in H; [discriminate|].
    apply inner_loop_ok in Ein. destruct Ein as (_ & O1 & _).
    simpl in Hk. rewrite (IH _ _ _ H k) by lia. apply O1. lia.
Qed.

(** The diagonal has one entry per row of [gat.scores_], however many
    training times there are, and the entries past the last training time
    are 0. *)
Theorem diagonal_has_one_entry_per_row (gat : GeneralizationAcrossTime)
    (gat_scores : list (list Q)) (out : list Q) :
  diagonal_scores gat gat_scores = ok out ->
  List.length out = List.length gat_scores /\
  forall k,
    (List.length (train_times_times_ gat) <= k < List.length gat_scores)%nat ->
    nth_error out k = Some 0.
Proof.
  unfold diagonal_scores, enumerate. intros H. split.
  - apply outer_loop_ok in H. destruct H as (L & _).
    rewrite L. unfold np_zeros. apply repeat_length.
  - intros k Hk.
    rewrite (outer_loop_beyond _ _ _ _ _ _ _ H k) by (simpl; lia).
    unfold np_zeros. apply nth_error_repeat. lia.
Qed.

(** Three rows of scores and two training times: three entries, the last
    one 0. *)
Lemma diagonal_has_one_entry_per_row_witness :
  diagonal_scores gat_short [[1; 2]; [3; 4]; [5; 6]] = ok [1; 4; 0] /\
  List.length [1; 4; 0] = 3%nat /\
  forall k, (2 <= k < 3)%nat -> nth_error [1; 4; 0] k = Some 0.
Proof.
  split; [reflexivity|].
  apply (diagonal_has_one_entry_per_row gat_short [[1; 2]; [3; 4]; [5; 6]]).
  reflexivity.
Defined.

(** A classifier all of whose testing times, in every row, are more than
    one step before its training time keeps the entry 0. *)
Theorem diagonal_zero_when_tested_too_early (gat : GeneralizationAcrossTime)
    (gat_scores : list (list Q)) (out : list Q) (i : nat) (t : Q) :
  diagonal_scores gat gat_scores = ok out ->
  nth_error (train_times_times_ gat) i = Some t ->
  (i < List.length gat_scores)%nat ->
  (forall test_times u,
     In test_times (test_times_times_ gat) -> In u test_times ->
     train_times_step gat < t - u) ->
  nth_error out i = Some 0.
Proof.
  unfold diagonal_scores, enumerate. intros H Ht Hi Hearly.
  apply outer_loop_ok in H. destruct H as (L & _ & H).
  unfold np_zeros in L. rewrite repeat_length in L.
  destruct (nth_error out i) as [v|] eqn:Ev;
    [|apply nth_error_None in Ev; lia].
  specialize (H i t v Ht Ev). simpl in H.
  unfold last_passing in H. rewrite find_all_false in H.
  - apply nth_error_np_zeros in H. congruence.
  - intros row Hrow. apply in_rev in Hrow.
    apply passes_false_when_early. intros u Hu.
    apply (Hearly row u Hrow Hu).
Qed.

Lemma diagonal_zero_when_tested_too_early_witness :
  diagonal_scores gat_early [[1; 2]; [3; 4]; [5; 6]] = ok [0; 0; 0] /\
  nth_error [0; 0; 0] 1 = Some 0.
Proof.
  split; [reflexivity|].
  apply (diagonal_zero_when_tested_too_early gat_early
           [[1; 2]; [3; 4]; [5; 6]] [0; 0; 0] 1 11).
  - reflexivity.
  - reflexivity.
  - simpl. lia.
  - intros test_times u Hrow Hu. simpl in Hrow.
    assert (Hr : test_times = [0; 1]) by intuition congruence.
    subst test_times. simpl in Hu.
    destruct Hu as [<-|[<-|[]]]; reflexivity.
Defined.

(** On the usual grid, where every classifier is tested at the training
    times, these are distinct and the step is not negative, the selector
    ['diagonal'] gives the scores of each classifier at its own training
    time: entry [i] is [gat.scores_[i][i]]. *)
Theorem diagonal_of_square_grid (gat : GeneralizationAcrossTime)
    (gat_scores : list (list Q)) :
  only_diagonal gat = false ->
  Forall (fun test_times => test_times = train_times_times_ gat)
    (test_times_times_ gat) ->
  distinct_times (train_times_times_ gat) ->
  0 <= train_times_step gat ->
  List.length gat_scores = List.length (train_times_times_ gat) ->
  Forall (fun row =>
            (List.length (train_times_times_ gat) <= List.length row)%nat)
    gat_scores ->
  exists out,
    slice_scores gat gat_scores (PyStr "diagonal") = ok (Arr1 out) /\
    List.length out = List.length gat_scores /\
    forall i row v,
      nth_error gat_scores i = Some row -> nth_error row i = Some v ->
      nth_error out i = Some v.
Proof.
  intros Hd Hrows Hdist Hstep Hlen Hwide.
  assert (Hne : test_times_times_ gat <> []).
  { intros E. unfold only_diagonal in Hd. rewrite E in Hd. discriminate. }
  assert (Hret : exists out,
             diagonal_scores gat gat_scores = ok out /\
             List.length out = List.length gat_scores).
  { destruct (train_times_times_ gat) as [|t0 times] eqn:Et.
    - unfold diagonal_scores. rewrite Et. simpl. eexists. split; [reflexivity|].
      unfold np_zeros. apply repeat_length.
    - rewrite <- Et in *.
      apply (diagonal_scores_returns gat gat_scores
               (List.length (train_times_times_ gat))).
      + lia.
      + rewrite Forall_forall in *. intros r Hr. rewrite (Hrows r Hr).
        split; [rewrite Et; discriminate | lia].
      + exact Hwide. }
  destruct Hret as (out & Hout & Hlout).
  exists out. split.
  { unfold slice_scores. rewrite Hd. simpl. rewrite Hout. reflexivity. }
  split; [exact Hlout|].
  intros i row v Hrow Hv.
  assert (Hi : (i < List.length gat_scores)%nat)
    by (apply nth_error_Some; congruence).
  destruct (nth_error (train_times_times_ gat) i) as [t|] eqn:Et;
    [|apply nth_error_None in Et; lia].
  destruct (nth_error out i) as [v'|] eqn:Ev;
    [|apply nth_error_None in Ev; lia].
  unfold diagonal_scores, enumerate in Hout.
  apply outer_loop_ok in Hout. destruct Hout as (_ & _ & H).
  specialize (H i t v' Et Ev). simpl in H.
  assert (Hpass : passes (train_times_step gat) t (train_times_times_ gat)
                  = true).
  { unfold passes. rewrite (np_argmin_exact _ i t Hdist Et).
    unfold ok. rewrite Et. apply Qle_bool_iff.
    assert (E0 : t - t == 0) by ring. lra. }
  destruct (find_all_true (passes (train_times_step gat) t)
              (rev (test_times_times_ gat))) as (r & Hfind & Hin).
  { intros E. apply Hne. rewrite <- (rev_involutive (test_times_times_ gat)).
    rewrite E. reflexivity. }
  { intros r Hr. apply in_rev in Hr. rewrite Forall_forall in Hrows.
    rewrite (Hrows r Hr). exact Hpass. }
  unfold last_passing in H. rewrite Hfind in H.
  apply in_rev in Hin. rewrite Forall_forall in Hrows.
  rewrite (Hrows r Hin) in H.
  destruct H as (j & row' & Hj & Hrow' & Hv').
  rewrite (np_argmin_exact _ i t Hdist Et) in Hj. injection Hj as <-.
  congruence.
Qed.

Lemma diagonal_of_square_grid_witness :
  exists out,
    slice_scores gat_square [[1; 2; 3]; [4; 5; 6]; [7; 8; 9]] (PyStr "diagonal")
    = ok (Arr1 out) /\
    List.length out = 3%nat /\
    forall i row v,
      nth_error [[1; 2; 3]; [4; 5; 6]; [7; 8; 9]] i = Some row ->
      nth_error row i = Some v ->
      nth_error out i = Some v.
Proof.
  apply (diagonal_of_square_grid gat_square [[1; 2; 3]; [4; 5; 6]; [7; 8; 9]]).
  - reflexivity.
  - repeat constructor.
  - apply distinct_times_012.
  - discriminate.
  - reflexivity.
  - repeat constructor.
Defined.

(** ** [plot_gat_slice], call by call *)

(** The calls of the chance level do not depend on the calls made before. *)
Lemma chance_level_run (gat : GeneralizationAcrossTime) (chance : pyval)
    (tr : list call) :
  chance_level gat chance tr
  = (tr ++ fst (chance_level gat chance []),
     snd (chance_level gat chance [])).
Proof.
  unfold chance_level.
  destruct chance as [|[|]|z|s|x|x|x];
    try (simpl; rewrite app_nil_r; reflexivity).
  destruct (String.eqb (scorer_name_ gat) "accuracy_score").
  - destruct (List.length (np_unique Z.ltb Z.eqb (y_train_ gat)));
      simpl; [rewrite app_nil_r|]; reflexivity.
  - destruct (String.eqb (scorer_name_ gat) "roc_auc_score");
      [reflexivity|].
    destruct (scorer_name gat); cbv [dbind emit dret lift raise ok fst snd];
      cbn [app]; [rewrite <- app_assoc | rewrite app_nil_r]; reflexivity.
Qed.

Lemma xlim_run (xmin xmax : option Q) (tr : list call) :
  match xmin, xmax with
  | Some a, Some b => emit (ax_set_xlim [a; b])
  | _, _ => dret tt
  end tr = (tr ++ xlim_call xmin xmax, ok tt).
Proof.
  destruct xmin, xmax; simpl; try rewrite app_nil_r; reflexivity.
Qed.

(** The calls made by [plot_gat_slice] when nothing raises, in the order in
    which they are made. *)
Lemma plot_gat_slice_run (gat : GeneralizationAcrossTime)
    (gat_scores : list (list Q)) (scores : ndarray) (cl : list call)
    (lo hi : Q) (train_time : pyval) (title : option string)
    (xmin xmax ymin ymax : option Q) (ax : option axes) (show : bool)
    (color : string) (xlabel ylabel legend : bool) (chance : pyval)
    (tr : list call) :
  scores_ gat = Some gat_scores ->
  slice_scores gat gat_scores train_time = ok scores ->
  chance_level gat chance [] = (cl, ok tt) ->
  option_or ymin (np_min scores) = ok lo ->
  option_or ymax (np_max scores) = ok hi ->
  plot_gat_slice gat train_time title xmin xmax ymin ymax ax show color
    xlabel ylabel legend chance tr
  = (tr ++ subplots_call ax
        ++ [ax_plot (train_times_times_ gat) scores color "Classif. score"]
        ++ cl
        ++ title_call title
        ++ [ax_set_ylim [lo; hi]]
        ++ xlim_call xmin xmax
        ++ if_call xlabel (ax_set_xlabel "Time (s)")
        ++ if_call ylabel (ax_set_ylabel (score_label gat))
        ++ if_call legend (ax_legend "best")
        ++ if_call show plt_show,
     ok (figure_of (axes_used ax))).
Proof.
  intros Hs Hv Hc Hlo Hhi. unfold plot_gat_slice. rewrite Hs.
  erewrite dbind_step by apply get_axes_run.
  erewrite dbind_step by (unfold lift; rewrite Hv; reflexivity).
  erewrite dbind_step by apply emit_run.
  erewrite dbind_step by (rewrite chance_level_run, Hc; reflexivity).
  erewrite dbind_step by apply title_run.
  erewrite dbind_step by (rewrite default_to_run, Hlo; reflexivity).
  erewrite dbind_step by (rewrite default_to_run, Hhi; reflexivity).
  erewrite dbind_step by apply emit_run.
  erewrite dbind_step by apply xlim_run.
  erewrite dbind_step by apply when_run.
  erewrite dbind_step by apply when_run.
  erewrite dbind_step by apply when_run.
  erewrite dbind_step by apply when_run.
  unfold dret, score_label. repeat rewrite <- app_assoc. reflexivity.
Qed.

(** When the chance level raises, the curve has been plotted and nothing
    else follows. *)
Lemma plot_gat_slice_chance_fail (gat : GeneralizationAcrossTime)
    (gat_scores : list (list Q)) (scores : ndarray) (cl : list call)
    (e : exn) (train_time : pyval) (title : option string)
    (xmin xmax ymin ymax : option Q) (ax : option axes) (show : bool)
    (color : string) (xlabel ylabel legend : bool) (chance : pyval)
    (tr : list call) :
  scores_ gat = Some gat_scores ->
  slice_scores gat gat_scores train_time = ok scores ->
  chance_level gat chance [] = (cl, inl e) ->
  plot_gat_slice gat train_time title xmin xmax ymin ymax ax show color
    xlabel ylabel legend chance tr
  = (tr ++ subplots_call ax
        ++ [ax_plot (train_times_times_ gat) scores color "Classif. score"]
        ++ cl,
     inl e).
Proof.
  intros Hs Hv Hc. unfold plot_gat_slice. rewrite Hs.
  erewrite dbind_step by apply get_axes_run.
  erewrite dbind_step by (unfold lift; rewrite Hv; reflexivity).
  erewrite dbind_step by apply emit_run.
  erewrite dbind_stop by (rewrite chance_level_run, Hc; reflexivity).
  repeat rewrite <- app_assoc. reflexivity.
Qed.

(** When a limit of the y axis cannot be computed, the curve, the chance
    level and the title are there and nothing else follows. *)
Lemma plot_gat_slice_limits_fail (gat : GeneralizationAcrossTime)
    (gat_scores : list (list Q)) (scores : ndarray) (cl : list call)
    (e : exn) (train_time : pyval) (title : option string)
    (xmin xmax ymin ymax : option Q) (ax : option axes) (show : bool)
    (color : string) (xlabel ylabel legend : bool) (chance : pyval)
    (tr : list call) :
  scores_ gat = Some gat_scores ->
  slice_scores gat gat_scores train_time = ok scores ->
  chance_level gat chance [] = (cl, ok tt) ->
  rbind (option_or ymin (np_min scores))
    (fun _ => option_or ymax (np_max scores)) = inl e ->
  plot_gat_slice gat train_time title xmin xmax ymin ymax ax show color
    xlabel ylabel legend chance tr
  = (tr ++ subplots_call ax
        ++ [ax_plot (train_times_times_ gat) scores color "Classif. score"]
        ++ cl ++ title_call title,
     inl e).
Proof.
  intros Hs Hv Hc He. unfold plot_gat_slice. rewrite Hs.
  erewrite dbind_step by apply get_axes_run.
  erewrite dbind_step by (unfold lift; rewrite Hv; reflexivity).
  erewrite dbind_step by apply emit_run.
  erewrite dbind_step by (rewrite chance_level_run, Hc; reflexivity).
  erewrite dbind_step by apply title_run.
  destruct (option_or ymin (np_min scores)) as [e1|lo] eqn:E1; simpl in He.
  { injection He as <-.
    erewrite dbind_stop by (rewrite default_to_run, E1; reflexivity).
    repeat rewrite <- app_assoc. reflexivity. }
  erewrite dbind_step by (rewrite default_to_run, E1; reflexivity).
  erewrite dbind_stop by (rewrite default_to_run, He; reflexivity).
  repeat rewrite <- app_assoc. reflexivity.
Qed.

Lemma insert_unique_not_nil {A} (ltb eqb : A -> A -> bool) (a : A)
    (l : list A) :
  insert_unique ltb eqb a l <> [].
Proof.
  destruct l as [|b r]; simpl; [discriminate|].
  destruct (ltb a b); [discriminate|].
  destruct (eqb a b); discriminate.
Qed.

Lemma np_unique_nil {A} (ltb eqb : A -> A -> bool) (l : list A) :
  np_unique ltb eqb l = [] -> l = [].
Proof.
  destruct l as [|a r]; [reflexivity|]. simpl. intros H.
  exfalso. exact (insert_unique_not_nil _ _ _ _ H).
Qed.


(** What a returning call of [plot_gat_slice] has computed. *)
Lemma plot_gat_slice_returns_inv (gat : GeneralizationAcrossTime)
    (gat_scores : list (list Q)) (fig : figure)
    (train_time : pyval) (title : option string)
    (xmin xmax ymin ymax : option Q) (ax : option axes) (show : bool)
    (color : string) (xlabel ylabel legend : bool) (chance : pyval)
    (tr : list call) :
  scores_ gat = Some gat_scores ->
  snd (plot_gat_slice gat train_time title xmin xmax ymin ymax ax show color
         xlabel ylabel legend chance tr) = ok fig ->
  exists scores cl lo hi,
    slice_scores gat gat_scores train_time = ok scores /\
    chance_level gat chance [] = (cl, ok tt) /\
    option_or ymin (np_min scores) = ok lo /\
    option_or ymax (np_max scores) = ok hi.
Proof.
  intros Hs H.
  destruct (slice_scores gat gat_scores train_time) as [e|scores] eqn:Ev.
  { rewrite (plot_gat_slice_raises_early gat gat_scores e) in H by assumption.
    discriminate. }
  destruct (chance_level gat chance []) as [cl [e|[]]] eqn:Ec.
  { rewrite (plot_gat_slice_chance_fail gat gat_scores scores cl e) in H
      by assumption.
    discriminate. }
  destruct (option_or ymin (np_min scores)) as [e|lo] eqn:E1.
  { rewrite (plot_gat_slice_limits_fail gat gat_scores scores cl e) in H;
      [discriminate | assumption | assumption | assumption |].
    rewrite E1. reflexivity. }
  destruct (option_or ymax (np_max scores)) as [e|hi] eqn:E2.
  { rewrite (plot_gat_slice_limits_fail gat gat_scores scores cl e) in H;
      [discriminate | assumption | assumption | assumption |].
    rewrite E1, E2. reflexivity. }
  exists scores, cl, lo, hi. auto.
Qed.

(** When [ymin] and [ymax] are not given and the call returns, the limits
    of the y axis are entries of the plotted scores, the first below and the
    second above every entry. *)
Theorem slice_y_limits_are_extremes (gat : GeneralizationAcrossTime)
    (gat_scores : list (list Q)) (fig : figure)
    (train_time : pyval) (title : option string)
    (xmin xmax : option Q) (ax : option axes) (show : bool)
    (color : string) (xlabel ylabel legend : bool) (chance : pyval)
    (tr : list call) :
  scores_ gat = Some gat_scores ->
  snd (plot_gat_slice gat train_time title xmin xmax None None ax show color
         xlabel ylabel legend chance tr) = ok fig ->
  exists scores lo hi,
    slice_scores gat gat_scores train_time = ok scores /\
    In (ax_set_ylim [lo; hi])
       (fst (plot_gat_slice gat train_time title xmin xmax None None ax show
               color xlabel ylabel legend chance tr)) /\
    In lo (ravel scores) /\ In hi (ravel scores) /\
    forall x, In x (ravel scores) -> lo <= x /\ x <= hi.
Proof.
  intros Hs H.
  destruct (plot_gat_slice_returns_inv _ _ _ _ _ _ _ _ _ _ _ _ _ _ _ _ _
              Hs H) as (scores & cl & lo & hi & Hv & Hc & Hlo & Hhi).
  exists scores, lo, hi. split; [exact Hv|].
  rewrite (plot_gat_slice_run gat gat_scores scores cl lo hi) by assumption.
  simpl in Hlo, Hhi.
  destruct (np_min_spec _ _ Hlo) as (Hlin & Hlow).
  destruct (np_max_spec _ _ Hhi) as (Hhin & Hhigh).
  cbn [fst]. repeat split; auto.
  do 5 (apply in_or_app; right). left. reflexivity.
Qed.

Lemma slice_y_limits_are_extremes_witness :
  exists scores lo hi,
    slice_scores gat_square [[1; 2; 3]; [4; 5; 6]; [7; 8; 9]] (PyFloat 1)
    = ok scores /\
    In (ax_set_ylim [lo; hi])
       (fst (plot_gat_slice_default gat_square (PyFloat 1) (PyBool true))) /\
    In lo (ravel scores) /\ In hi (ravel scores) /\
    forall x, In x (ravel scores) -> lo <= x /\ x <= hi.
Proof.
  apply (slice_y_limits_are_extremes gat_square
           [[1; 2; 3]; [4; 5; 6]; [7; 8; 9]] (figure_of new_axes));
    reflexivity.
Defined.



(** ** The number of distinct labels *)

Lemma insert_unique_sorted (a : Z) (l : list Z) :
  StronglySorted Z.lt l ->
  StronglySorted Z.lt (insert_unique Z.ltb Z.eqb a l).
Proof.
  induction l as [|b r IH]; intros Hs; simpl.
  - repeat constructor.
  - apply StronglySorted_inv in Hs. destruct Hs as (Hr & Hb).
    destruct (Z.ltb_spec a b) as [Hab|Hab].
    + constructor; [constructor; assumption|].
      constructor; [exact Hab|].
      rewrite Forall_forall in *. intros x Hx. specialize (Hb x Hx). lia.
    + destruct (Z.eqb_spec a b) as [Heq|Hne].
      * constructor; assumption.
      * constructor; [apply IH, Hr|].
        rewrite Forall_forall in *. intros x Hx.
        apply in_insert_unique in Hx; [|apply Z.eqb_eq].
        destruct Hx as [->|Hx]; [lia | apply Hb, Hx].
Qed.

(** [np.unique] returns its elements in strictly increasing order. *)
Lemma np_unique_sorted (l : list Z) :
  StronglySorted Z.lt (np_unique Z.ltb Z.eqb l).
Proof.
  induction l as [|a r IH]; simpl; [constructor|].
  apply insert_unique_sorted, IH.
Qed.

Lemma sorted_NoDup (l : list Z) : StronglySorted Z.lt l -> NoDup l.
Proof.
  induction 1 as [|a r Hr IH Ha]; constructor; [|exact IH].
  intros Hin. rewrite Forall_forall in Ha. specialize (Ha a Hin). lia.
Qed.

(** The length of [np.unique(y)] is the number of distinct elements of
    [y]. *)
Lemma np_unique_length (l : list Z) :
  List.length (np_unique Z.ltb Z.eqb l) = List.length (nodup Z.eq_dec l).
Proof.
  apply Permutation_length, NoDup_Permutation.
  - apply sorted_NoDup, np_unique_sorted.
  - apply NoDup_nodup.
  - intros x. rewrite nodup_In. apply in_np_unique. apply Z.eqb_eq.
Qed.

(** With [chance=True] and the accuracy scorer, once the scores are
    extracted, the dashed line labelled "Chance level" is drawn at one over
    the number of distinct training labels, whatever their order and their
    repetitions. *)
Theorem chance_level_is_one_over_distinct_labels
    (gat : GeneralizationAcrossTime) (gat_scores : list (list Q))
    (scores : ndarray) (train_time : pyval) (title : option string)
    (xmin xmax ymin ymax : option Q) (ax : option axes) (show : bool)
    (color : string) (xlabel ylabel legend : bool) (tr : list call) :
  scores_ gat = Some gat_scores ->
  slice_scores gat gat_scores train_time = ok scores ->
  scorer_name_ gat = "accuracy_score"%string ->
  y_train_ gat <> [] ->
  In (ax_axhline
        (Fin (1 # Pos.of_nat (List.length (nodup Z.eq_dec (y_train_ gat)))))
        "k" (Some "--"%string) (Some "Chance level"%string))
     (fst (plot_gat_slice gat train_time title xmin xmax ymin ymax ax show
             color xlabel ylabel legend (PyBool true) tr)).
Proof.
  intros Hs Hv Hn Hy.
  destruct (List.length (np_unique Z.ltb Z.eqb (y_train_ gat))) as [|n] eqn:El.
  { apply length_zero_iff_nil, np_unique_nil in El. contradiction. }
  rewrite <- np_unique_length, El, <- Pos.of_nat_succ.
  unfold plot_gat_slice. rewrite Hs.
  skip_call.
  eapply in_trace_after; [unfold lift; simpl; exact Hv | intros ?].
  skip_call.
  apply in_trace_dbind.
  - rewrite (chance_level_accuracy gat n _ Hn El). simpl.
    apply in_or_app. right. left. reflexivity.
  - intros ?. emits_with ltac:(exact I).
Qed.

Lemma chance_level_is_one_over_distinct_labels_witness :
  In (ax_axhline (Fin (1 # 4)) "k" (Some "--"%string)
        (Some "Chance level"%string))
     (fst (plot_gat_slice_default gat_shifted (PyStr "diagonal") (PyBool true))).
Proof.
  apply (chance_level_is_one_over_distinct_labels gat_shifted
           [[5; 6]; [7; 8]] (Arr1 [5; 8]) (PyStr "diagonal") None None None
           None None None true "b" true true true []);
    try reflexivity.
  discriminate.
Defined.

(** ** What the functions never do *)

(** [plot_gat_matrix] issues no warning; [plot_gat_slice] issues none
    unless [chance] is [True] and the scorer is neither of the two it
    knows. *)
Theorem no_warning_for_known_scorers (gat : GeneralizationAcrossTime)
    (train_time : pyval) (title : option string)
    (vmin vmax xmin xmax ymin ymax : option Q) (tlim : option (list Q))
    (ax : option axes) (cmap color : string)
    (show colorbar xlabel ylabel legend : bool) (chance : pyval) :
  chance <> PyBool true \/
  scorer_name_ gat = "accuracy_score"%string \/
  scorer_name_ gat = "roc_auc_score"%string ->
  Forall (fun c => is_warning c = false)
    (fst (plot_gat_slice gat train_time title xmin xmax ymin ymax ax show
            color xlabel ylabel legend chance [])) /\
  Forall (fun c => is_warning c = false)
    (fst (plot_gat_matrix gat title vmin vmax tlim ax cmap show colorbar
            xlabel ylabel [])).
Proof.
  intros H.
  assert (Hc : emits_only (fun c => is_warning c = false)
                 (chance_level gat chance)).
  { unfold chance_level.
    destruct chance as [|[|]|z|s|x|x|x]; try apply emits_dret.
    destruct H as [H|[H|H]]; [congruence| |]; rewrite H; simpl;
      emits_with ltac:(reflexivity). }
  assert (Hslice : emits_only (fun c => is_warning c = false)
             (plot_gat_slice gat train_time title xmin xmax ymin ymax ax
                show color xlabel ylabel legend chance)).
  { unfold plot_gat_slice. destruct (scores_ gat); [|apply emits_lift].
    apply emits_dbind; [apply get_axes_emits; reflexivity | intros ?].
    apply emits_dbind; [apply emits_lift | intros ?].
    apply emits_dbind; [apply emits_emit; reflexivity | intros ?].
    apply emits_dbind; [exact Hc | intros ?].
    emits_with ltac:(reflexivity). }
  assert (Hmatrix : emits_only (fun c => is_warning c = false)
             (plot_gat_matrix gat title vmin vmax tlim ax cmap show colorbar
                xlabel ylabel)).
  { unfold plot_gat_matrix. destruct (scores_ gat); [|apply emits_lift].
    emits_with ltac:(reflexivity). }
  destruct (Hslice []) as (s1 & -> & F1).
  destruct (Hmatrix []) as (s2 & -> & F2).
  split; assumption.
Qed.

Lemma no_warning_for_known_scorers_witness :
  Forall (fun c => is_warning c = false)
    (fst (plot_gat_slice_default gat_late (PyStr "diagonal") (PyBool true))) /\
  Forall (fun c => is_warning c = false)
    (fst (plot_gat_matrix_default gat_late)).
Proof.
  apply (no_warning_for_known_scorers gat_late).
  right. right. reflexivity.
Defined.

(** The limits of the x axis are left alone unless both [xmin] and [xmax]
    are given. *)
Theorem x_limits_need_both_bounds (gat : GeneralizationAcrossTime)
    (train_time : pyval) (title : option string)
    (xmin xmax ymin ymax : option Q) (ax : option axes) (show : bool)
    (color : string) (xlabel ylabel legend : bool) (chance : pyval) :
  xmin = None \/ xmax = None ->
  Forall (fun c => is_set_xlim c = false)
    (fst (plot_gat_slice gat train_time title xmin xmax ymin ymax ax show
            color xlabel ylabel legend chance [])).
Proof.
  intros H.
  assert (Hx : emits_only (fun c => is_set_xlim c = false)
                 (match xmin, xmax with
                  | Some a, Some b => emit (ax_set_xlim [a; b])
                  | _, _ => dret tt
                  end)).
  { destruct H as [-> | ->]; [|destruct xmin]; apply emits_dret. }
  assert (Hslice : emits_only (fun c => is_set_xlim c = false)
             (plot_gat_slice gat train_time title xmin xmax ymin ymax ax
                show color xlabel ylabel legend chance)).
  { unfold plot_gat_slice, chance_level.
    destruct (scores_ gat); [|apply emits_lift].
    apply emits_dbind; [apply get_axes_emits; reflexivity | intros ?].
    apply emits_dbind; [apply emits_lift | intros ?].
    apply emits_dbind; [apply emits_emit; reflexivity | intros ?].
    apply emits_dbind; [emits_with ltac:(reflexivity) | intros ?].
    apply emits_dbind; [emits_with ltac:(reflexivity) | intros ?].
    apply emits_dbind; [apply emits_default_to | intros ?].
    apply emits_dbind; [apply emits_default_to | intros ?].
    apply emits_dbind; [apply emits_emit; reflexivity | intros ?].
    apply emits_dbind; [exact Hx | intros ?].
    emits_with ltac:(reflexivity). }
  destruct (Hslice []) as (s1 & -> & F1). exact F1.
Qed.

Lemma x_limits_need_both_bounds_witness :
  Forall (fun c => is_set_xlim c = false)
    (fst (plot_gat_slice gat_square (PyStr "diagonal") None (Some 0) None
            None None None true "b" true true true (PyBool true) [])).
Proof.
  apply (x_limits_need_both_bounds gat_square). right. reflexivity.
Defined.

(** When an axes is given, neither function creates one, and the figure
    returned is the figure of the axes given. *)
Theorem given_axes_is_used (gat : GeneralizationAcrossTime) (a : axes)
    (train_time : pyval) (title : option string)
    (vmin vmax xmin xmax ymin ymax : option Q) (tlim : option (list Q))
    (cmap color : string) (show colorbar xlabel ylabel legend : bool)
    (chance : pyval) :
  let matrix :=
    plot_gat_matrix gat title vmin vmax tlim (Some a) cmap show colorbar
      xlabel ylabel [] in
  let slice :=
    plot_gat_slice gat train_time title xmin xmax ymin ymax (Some a) show
      color xlabel ylabel legend chance [] in
  Forall (fun c => is_subplots c = false) (fst matrix) /\
  (forall fig, snd matrix = ok fig -> fig = figure_of a) /\
  Forall (fun c => is_subplots c = false) (fst slice) /\
  (forall fig, snd slice = ok fig -> fig = figure_of a).
Proof.
  cbv zeta. repeat split.
  - assert (H : emits_only (fun c => is_subplots c = false)
                  (plot_gat_matrix gat title vmin vmax tlim (Some a) cmap
                     show colorbar xlabel ylabel)).
    { unfold plot_gat_matrix. destruct (scores_ gat); [|apply emits_lift].
      change (get_axes (Some a)) with (dret a).
      emits_with ltac:(reflexivity). }
    destruct (H []) as (s1 & -> & F1). exact F1.
  - intros fig H.
    destruct (scores_ gat) as [gat_scores|] eqn:Hs.
    2:{ unfold plot_gat_matrix in H. rewrite Hs in H. discriminate. }
    destruct (option_or vmin (np_min (Arr2 gat_scores))) as [e|lo] eqn:E1.
    { rewrite (plot_gat_matrix_fail gat gat_scores e) in H;
        [discriminate | assumption | rewrite E1; reflexivity]. }
    destruct (option_or vmax (np_max (Arr2 gat_scores))) as [e|hi] eqn:E2.
    { rewrite (plot_gat_matrix_fail gat gat_scores e) in H;
        [discriminate | assumption | rewrite E1, E2; reflexivity]. }
    destruct (option_or tlim (default_tlim gat)) as [e|tl] eqn:E3.
    { rewrite (plot_gat_matrix_fail gat gat_scores e) in H;
        [discriminate | assumption | rewrite E1, E2, E3; reflexivity]. }
    rewrite (plot_gat_matrix_run gat gat_scores lo hi tl) in H by assumption.
    simpl in H. injection H as <-. reflexivity.
  - assert (H : emits_only (fun c => is_subplots c = false)
                  (plot_gat_slice gat train_time title xmin xmax ymin ymax
                     (Some a) show color xlabel ylabel legend chance)).
    { unfold plot_gat_slice, chance_level.
      destruct (scores_ gat); [|apply emits_lift].
      change (get_axes (Some a)) with (dret a).
      emits_with ltac:(reflexivity). }
    destruct (H []) as (s1 & -> & F1). exact F1.
  - intros fig H.
    destruct (scores_ gat) as [gat_scores|] eqn:Hs.
    2:{ unfold plot_gat_slice in H. rewrite Hs in H. discriminate. }
    destruct (plot_gat_slice_returns_inv _ _ _ _ _ _ _ _ _ _ _ _ _ _ _ _ _
                Hs H) as (scores & cl & lo & hi & Hv & Hc & Hlo & Hhi).
    rewrite (plot_gat_slice_run gat gat_scores scores cl lo hi) in H
      by assumption.
    simpl in H. injection H as <-. reflexivity.
Qed.

(** ** Edge cases of the extraction *)

(** The index found in a row of testing times is used on the row of scores
    of the classifier without a check: when the first row of testing times
    passes the check for the first training time and the first row of
    scores has no entry at the index found, ['diagonal'] raises
    [IndexError]. *)
Theorem diagonal_index_out_of_range (gat : GeneralizationAcrossTime)
    (gat_scores rows : list (list Q)) (t0 : Q) (times test_times row : list Q)
    (j : nat) :
  only_diagonal gat = false ->
  train_times_times_ gat = t0 :: times ->
  test_times_times_ gat = test_times :: rows ->
  passes (train_times_step gat) t0 test_times = true ->
  np_argmin (abs_diff test_times t0) = ok j ->
  nth_error gat_scores 0 = Some row ->
  (List.length row <= j)%nat ->
  slice_scores gat gat_scores (PyStr "diagonal") = raise IndexError.
Proof.
  intros Hd Ht Hr Hp Hj Hrow Hlen. unfold slice_scores. rewrite Hd. simpl.
  unfold diagonal_scores, enumerate. rewrite Ht, Hr. simpl.
  unfold passes in Hp. rewrite Hj in Hp. unfold ok in Hp.
  unfold diagonal_body at 1. rewrite Hj. simpl.
  unfold getitem at 1.
  destruct (nth_error test_times j) as [tj|]; [|discriminate].
  simpl. rewrite Hp. unfold getitem. rewrite Hrow. simpl.
  apply nth_error_None in Hlen. rewrite Hlen. reflexivity.
Qed.

(** The first classifier has two scores; the first row of testing times
    has three entries, the third nearest to the training time 2. *)
Lemma diagonal_index_out_of_range_witness :
  slice_scores
    {| scores_ := Some [[1; 2]; [3; 4]];
       train_times_times_ := [2; 3];
       train_times_step := 1;
       test_times_times_ := [[0; 1; 2]; [2; 3]];
       scorer_name_ := "accuracy_score";
       scorer_repr_ := "<function accuracy_score>";
       scorer_name := None;
       y_train_ := [0; 1]%Z |}
    [[1; 2]; [3; 4]] (PyStr "diagonal")
  = raise IndexError.
Proof.
  apply (diagonal_index_out_of_range _ [[1; 2]; [3; 4]] [[2; 3]] 2 [3]
           [0; 1; 2] [1; 2] 2);
    reflexivity.
Defined.

(** Without training times, on an object that is not diagonal-only:
    ['diagonal'] gives one 0 per row of scores, whatever the testing times,
    and every float raises the exception numpy raises for [argmin] of an
    empty sequence. *)
Theorem no_training_times (gat : GeneralizationAcrossTime)
    (gat_scores : list (list Q)) :
  only_diagonal gat = false ->
  train_times_times_ gat = [] ->
  slice_scores gat gat_scores (PyStr "diagonal")
  = ok (Arr1 (repeat 0 (List.length gat_scores))) /\
  forall train_time t,
    float_value train_time = Some t ->
    slice_scores gat gat_scores train_time = raise ValueError_empty_sequence.
Proof.
  intros Hd Ht. split.
  - unfold slice_scores. rewrite Hd. simpl.
    unfold diagonal_scores. rewrite Ht. reflexivity.
  - intros train_time t Hf. unfold slice_scores.
    rewrite Hd, (float_is_not_diagonal _ _ Hf), Hf.
    unfold row_scores. rewrite Ht. reflexivity.
Qed.

Lemma no_training_times_witness :
  slice_scores
    {| scores_ := Some [[1; 2]; [3; 4]];
       train_times_times_ := [];
       train_times_step := 1;
       test_times_times_ := [[0; 1]; [0; 1]];
       scorer_name_ := "accuracy_score";
       scorer_repr_ := "<function accuracy_score>";
       scorer_name := None;
       y_train_ := [0; 1]%Z |}
    [[1; 2]; [3; 4]] (PyStr "diagonal")
  = ok (Arr1 [0; 0]).
Proof.
  apply (no_training_times _ [[1; 2]; [3; 4]]); reflexivity.
Defined.

(** ** Which row a float selects *)

(** Every element scanned before the index returned by [argmin_from] is
    strictly above the element at that index. *)
Lemma argmin_from_first (l : list Q) :
  forall best bi i pre,
    List.length pre = i -> nth_error pre bi = Some best ->
    (forall x, In x pre -> best <= x) ->
    (forall k x, (k < bi)%nat -> nth_error pre k = Some x -> best < x) ->
    forall m, nth_error (pre ++ l) (argmin_from best bi i l) = Some m ->
    forall k x, (k < argmin_from best bi i l)%nat ->
      nth_error (pre ++ l) k = Some x -> m < x.
Proof.
  induction l as [|y r IH]; intros best bi i pre Hlen Hbi Hlow Hfirst m Hm;
    simpl in *.
  - rewrite app_nil_r in *. intros k x Hk Hx.
    assert (m = best) by congruence. subst m. apply (Hfirst k x Hk Hx).
  - destruct (Qlt_bool y best) eqn:E.
    + apply Qlt_bool_iff in E.
      replace (pre ++ y :: r) with ((pre ++ [y]) ++ r) in *
        by (rewrite <- app_assoc; reflexivity).
      apply (IH y i (S i) (pre ++ [y])); try assumption.
      * rewrite length_app. simpl. lia.
      * rewrite nth_error_app2 by lia. rewrite Hlen, Nat.sub_diag. reflexivity.
      * intros x Hx. apply in_app_or in Hx. destruct Hx as [Hx|[<-|[]]].
        -- specialize (Hlow x Hx). lra.
        -- lra.
      * intros k x Hk Hx. rewrite nth_error_app1 in Hx by lia.
        apply nth_error_In in Hx. specialize (Hlow x Hx). lra.
    + apply Qlt_bool_false in E.
      assert (Hb : (bi < List.length pre)%nat)
        by (apply nth_error_Some; congruence).
      replace (pre ++ y :: r) with ((pre ++ [y]) ++ r) in *
        by (rewrite <- app_assoc; reflexivity).
      apply (IH best bi (S i) (pre ++ [y])); try assumption.
      * rewrite length_app. simpl. lia.
      * rewrite nth_error_app1 by lia. exact Hbi.
      * intros x Hx. apply in_app_or in Hx. destruct Hx as [Hx|[<-|[]]].
        -- apply Hlow, Hx.
        -- exact E.
      * intros k x Hk Hx. rewrite nth_error_app1 in Hx by lia.
        apply (Hfirst k x Hk Hx).
Qed.

(** [np_argmin] returns the first index of a smallest element. *)
Lemma np_argmin_first (l : list Q) (j : nat) (m : Q) :
  np_argmin l = ok j -> nth_error l j = Some m ->
  forall k x, (k < j)%nat -> nth_error l k = Some x -> m < x.
Proof.
  destruct l as [|y r]; simpl; [discriminate|].
  intros H. injection H as <-. intros Hm.
  apply (argmin_from_first r y 0%nat 1%nat [y]); try reflexivity;
    try exact Hm.
  - intros x [<-|[]]. lra.
  - intros k x Hk. lia.
Qed.

(** When a float selects a row of scores, this is the row of a classifier
    other than the first, no training time is nearer to the float than the
    training time of that classifier, and every earlier training time is
    strictly farther. *)
Theorem float_selects_first_nearest (gat : GeneralizationAcrossTime)
    (gat_scores : list (list Q)) (train_time : pyval) (t : Q)
    (scores : ndarray) :
  only_diagonal gat = false ->
  float_value train_time = Some t ->
  slice_scores gat gat_scores train_time = ok scores ->
  exists idx row t_idx,
    scores = Arr1 row /\ idx <> 0%nat /\
    nth_error gat_scores idx = Some row /\
    nth_error (train_times_times_ gat) idx = Some t_idx /\
    (forall u, In u (train_times_times_ gat) ->
       Qabs (t_idx - t) <= Qabs (u - t)) /\
    (forall k u, (k < idx)%nat ->
       nth_error (train_times_times_ gat) k = Some u ->
       Qabs (t_idx - t) < Qabs (u - t)).
Proof.
  intros Hd Hf H. unfold slice_scores in H.
  rewrite Hd, (float_is_not_diagonal _ _ Hf), Hf in H.
  unfold row_scores in H.
  destruct (np_argmin (abs_diff (train_times_times_ gat) t)) as [e|idx] eqn:Ei;
    simpl in H; [discriminate|].
  destruct (Nat.eqb_spec idx 0) as [E0|E0]; simpl in H; [discriminate|].
  unfold getitem in H.
  destruct (nth_error gat_scores idx) as [row|] eqn:Er; simpl in H;
    [|discriminate].
  injection H as <-.
  destruct (np_argmin_nearest _ _ _ Ei) as (t_idx & Ht & Hmin).
  exists idx, row, t_idx. repeat split; try assumption.
  intros k u Hk Hu.
  apply (np_argmin_first _ _ (Qabs (t_idx - t)) Ei) with (k := k).
  - unfold abs_diff. rewrite nth_error_map, Ht. reflexivity.
  - exact Hk.
  - unfold abs_diff. rewrite nth_error_map, Hu. reflexivity.
Qed.

(** The float 1.5 is as near to 1 as to 2: the classifier trained at 1 is
    selected. *)
Lemma float_selects_first_nearest_witness :
  slice_scores gat_square [[1; 2; 3]; [4; 5; 6]; [7; 8; 9]] (PyFloat (3 # 2))
  = ok (Arr1 [4; 5; 6]) /\
  exists idx row t_idx,
    Arr1 [4; 5; 6] = Arr1 row /\ idx <> 0%nat /\
    nth_error [[1; 2; 3]; [4; 5; 6]; [7; 8; 9]] idx = Some row /\
    nth_error [0; 1; 2] idx = Some t_idx /\
    (forall u, In u [0; 1; 2] -> Qabs (t_idx - (3 # 2)) <= Qabs (u - (3 # 2))) /\
    (forall k u, (k < idx)%nat -> nth_error [0; 1; 2] k = Some u ->
       Qabs (t_idx - (3 # 2)) < Qabs (u - (3 # 2))).
Proof.
  split; [reflexivity|].
  apply (float_selects_first_nearest gat_square
           [[1; 2; 3]; [4; 5; 6]; [7; 8; 9]] (PyFloat (3 # 2)));
    reflexivity.
Defined.

(** On a diagonal-only object the selector is not looked at: whatever is
    given for [train_time], the scores plotted are the whole of
    [gat.scores_], and nothing is raised on the way. *)
Theorem selector_ignored_when_diagonal_only (gat : GeneralizationAcrossTime)
    (gat_scores : list (list Q)) (train_time : pyval)
    (title : option string) (xmin xmax ymin ymax : option Q)
    (ax : option axes) (show : bool) (color : string)
    (xlabel ylabel legend : bool) (chance : pyval) (tr : list call) :
  scores_ gat = Some gat_scores ->
  Forall (fun t => List.length t = 1%nat) (test_times_times_ gat) ->
  slice_scores gat gat_scores train_time = ok (Arr2 gat_scores) /\
  In (ax_plot (train_times_times_ gat) (Arr2 gat_scores) color
        "Classif. score")
     (fst (plot_gat_slice gat train_time title xmin xmax ymin ymax ax show
             color xlabel ylabel legend chance tr)).
Proof.
  intros Hs Hall. apply only_diagonal_iff in Hall.
  assert (Hv : slice_scores gat gat_scores train_time = ok (Arr2 gat_scores)).
  { unfold slice_scores. rewrite Hall. reflexivity. }
  split; [exact Hv|].
  apply (plot_gat_slice_plots gat gat_scores); assumption.
Qed.

Lemma selector_ignored_when_diagonal_only_witness :
  slice_scores gat_column [[1]; [2]] PyNone = ok (Arr2 [[1]; [2]]) /\
  In (ax_plot [4; 5] (Arr2 [[1]; [2]]) "b" "Classif. score")
     (fst (plot_gat_slice_default gat_column PyNone (PyBool true))).
Proof.
  apply (selector_ignored_when_diagonal_only gat_column [[1]; [2]]).
  - reflexivity.
  - repeat constructor.
Defined.

(** ** The calls of a returning call, in order *)

(** A call of [plot_gat_matrix] that returns has made exactly these calls,
    in this order: the creation of the axes when none was given, the image
    with the time limits as extent, the labels and the title that were asked
    for, a vertical and a horizontal line through 0, the limits of the x
    axis (first half of the time limits) and of the y axis (second half),
    and, when asked for, the colorbar and then the display.  It returns the
    figure of the axes drawn on. *)
Theorem plot_gat_matrix_calls_in_order (gat : GeneralizationAcrossTime)
    (gat_scores : list (list Q)) (fig : figure)
    (title : option string) (vmin vmax : option Q) (tlim : option (list Q))
    (ax : option axes) (cmap : string) (show colorbar xlabel ylabel : bool)
    (tr : list call) :
  scores_ gat = Some gat_scores ->
  snd (plot_gat_matrix gat title vmin vmax tlim ax cmap show colorbar xlabel
         ylabel tr) = ok fig ->
  exists lo hi tl,
    option_or vmin (np_min (Arr2 gat_scores)) = ok lo /\
    option_or vmax (np_max (Arr2 gat_scores)) = ok hi /\
    option_or tlim (default_tlim gat) = ok tl /\
    plot_gat_matrix gat title vmin vmax tlim ax cmap show colorbar xlabel
      ylabel tr
    = (tr ++ subplots_call ax
          ++ [ax_imshow gat_scores tl lo hi cmap]
          ++ if_call xlabel (ax_set_xlabel "Testing Time (s)")
          ++ if_call ylabel (ax_set_ylabel "Training Time (s)")
          ++ title_call title
          ++ [ax_axvline 0 "k"; ax_axhline (Fin 0) "k" None None;
              ax_set_xlim (firstn 2 tl); ax_set_ylim (skipn 2 tl)]
          ++ if_call colorbar plt_colorbar
          ++ if_call show plt_show,
       ok (figure_of (axes_used ax))).
Proof.
  intros Hs H.
  destruct (option_or vmin (np_min (Arr2 gat_scores))) as [e|lo] eqn:E1.
  { rewrite (plot_gat_matrix_fail gat gat_scores e) in H;
      [discriminate | assumption | rewrite E1; reflexivity]. }
  destruct (option_or vmax (np_max (Arr2 gat_scores))) as [e|hi] eqn:E2.
  { rewrite (plot_gat_matrix_fail gat gat_scores e) in H;
      [discriminate | assumption | rewrite E1, E2; reflexivity]. }
  destruct (option_or tlim (default_tlim gat)) as [e|tl] eqn:E3.
  { rewrite (plot_gat_matrix_fail gat gat_scores e) in H;
      [discriminate | assumption | rewrite E1, E2, E3; reflexivity]. }
  exists lo, hi, tl. repeat split.
  apply plot_gat_matrix_run; assumption.
Qed.

Lemma plot_gat_matrix_calls_in_order_witness :
  exists lo hi tl,
    option_or None (np_min (Arr2 [[5; 6]; [7; 8]])) = ok lo /\
    option_or None (np_max (Arr2 [[5; 6]; [7; 8]])) = ok hi /\
    option_or None (default_tlim gat_shifted) = ok tl /\
    plot_gat_matrix_default gat_shifted
    = ([] ++ [plt_subplots 1 1]
          ++ [ax_imshow [[5; 6]; [7; 8]] tl lo hi "RdBu_r"]
          ++ [ax_set_xlabel "Testing Time (s)"]
          ++ [ax_set_ylabel "Training Time (s)"]
          ++ []
          ++ [ax_axvline 0 "k"; ax_axhline (Fin 0) "k" None None;
              ax_set_xlim (firstn 2 tl); ax_set_ylim (skipn 2 tl)]
          ++ [plt_colorbar]
          ++ [plt_show],
       ok (figure_of new_axes)).
Proof.
  apply (plot_gat_matrix_calls_in_order gat_shifted [[5; 6]; [7; 8]]
           (figure_of new_axes)); reflexivity.
Defined.

(** A call of [plot_gat_slice] that returns has made exactly these calls,
    in this order: the creation of the axes when none was given, the curve
    of the scores against the training times, the calls of the chance
    level, the title when given, the limits of the y axis, those of the x
    axis when both are given, the labels of the x and y axes, the legend and
    the display when asked for.  It returns the figure of the axes drawn
    on. *)
Theorem plot_gat_slice_calls_in_order (gat : GeneralizationAcrossTime)
    (gat_scores : list (list Q)) (fig : figure)
    (train_time : pyval) (title : option string)
    (xmin xmax ymin ymax : option Q) (ax : option axes) (show : bool)
    (color : string) (xlabel ylabel legend : bool) (chance : pyval)
    (tr : list call) :
  scores_ gat = Some gat_scores ->
  snd (plot_gat_slice gat train_time title xmin xmax ymin ymax ax show color
         xlabel ylabel legend chance tr) = ok fig ->
  exists scores cl lo hi,
    slice_scores gat gat_scores train_time = ok scores /\
    chance_level gat chance [] = (cl, ok tt) /\
    option_or ymin (np_min scores) = ok lo /\
    option_or ymax (np_max scores) = ok hi /\
    plot_gat_slice gat train_time title xmin xmax ymin ymax ax show color
      xlabel ylabel legend chance tr
    = (tr ++ subplots_call ax
          ++ [ax_plot (train_times_times_ gat) scores color "Classif. score"]
          ++ cl
          ++ title_call title
          ++ [ax_set_ylim [lo; hi]]
          ++ xlim_call xmin xmax
          ++ if_call xlabel (ax_set_xlabel "Time (s)")
          ++ if_call ylabel (ax_set_ylabel (score_label gat))
          ++ if_call legend (ax_legend "best")
          ++ if_call show plt_show,
       ok (figure_of (axes_used ax))).
Proof.
  intros Hs H.
  destruct (plot_gat_slice_returns_inv _ _ _ _ _ _ _ _ _ _ _ _ _ _ _ _ _
              Hs H) as (scores & cl & lo & hi & Hv & Hc & Hlo & Hhi).
  exists scores, cl, lo, hi. repeat split; try assumption.
  apply (plot_gat_slice_run gat gat_scores); assumption.
Qed.

Lemma plot_gat_slice_calls_in_order_witness :
  exists scores cl lo hi,
    slice_scores gat_square [[1; 2; 3]; [4; 5; 6]; [7; 8; 9]] (PyStr "diagonal")
    = ok scores /\
    chance_level gat_square (PyBool true) [] = (cl, ok tt) /\
    option_or None (np_min scores) = ok lo /\
    option_or None (np_max scores) = ok hi /\
    plot_gat_slice_default gat_square (PyStr "diagonal") (PyBool true)
    = ([] ++ [plt_subplots 1 1]
          ++ [ax_plot [0; 1; 2] scores "b" "Classif. score"]
          ++ cl
          ++ []
          ++ [ax_set_ylim [lo; hi]]
          ++ []
          ++ [ax_set_xlabel "Time (s)"]
          ++ [ax_set_ylabel "Classif. score (%)"]
          ++ [ax_legend "best"]
          ++ [plt_show],
       ok (figure_of new_axes)).
Proof.
  apply (plot_gat_slice_calls_in_order gat_square
           [[1; 2; 3]; [4; 5; 6]; [7; 8; 9]] (figure_of new_axes));
    reflexivity.
Defined.
